(** * Site-diary preprocessing server (src/main.py): a shallow embedding

    The pandas tables of [process_site_diary] are modelled as a list of
    column names plus a list of rows, each row a list of cells aligned
    with the columns.  Python strings are [string]s whose characters are
    the code points U+0000..U+00FF.  Cells carry the values a loaded
    table holds: a missing value (NaN, or the [None] it is replaced by),
    a string, an integer, a boolean, or a float64 holding a whole number
    (the only floats the pipeline itself creates, in [Duration_min]).
    Loaded tables are assumed to have distinct column names (the pandas
    readers rename repeated headers).  The scratch directory [TEMP_DIR] is a [gmap] from file
    names to files, and time is a whole number of seconds. *)

From Stdlib Require Import String Ascii ZArith Lia Sorting.Sorted.
From stdpp Require Import base list gmap strings.

Open Scope string_scope.

(* ------------------------------------------------------------------ *)
(** ** Python strings *)

Module Py.

(** [str.lower()] on the code points U+0000..U+00FF: ASCII capitals and
    the Latin-1 capitals U+00C0..U+00DE (except U+00D7) move by 32. *)
Definition lower_char (c : ascii) : ascii :=
  let n := nat_of_ascii c in
  if (Nat.leb 65 n && Nat.leb n 90) || (Nat.leb 192 n && Nat.leb n 222 && negb (Nat.eqb n 215))
  then ascii_of_nat (n + 32) else c.

Fixpoint lower (s : string) : string :=
  match s with
  | EmptyString => EmptyString
  | String c s' => String (lower_char c) (lower s')
  end.

Definition is_digit (c : ascii) : bool :=
  let n := nat_of_ascii c in Nat.leb 48 n && Nat.leb n 57.

Definition digit_value (c : ascii) : Z := Z.of_nat (nat_of_ascii c - 48).

(** [str(int)]: decimal digits, with a leading '-' when negative. *)
Fixpoint digits_of_pos_aux (fuel : nat) (n : Z) (acc : string) : string :=
  match fuel with
  | O => acc
  | S fuel' =>
      let d := ascii_of_nat (48 + Z.to_nat (n mod 10)) in
      if Z.ltb n 10 then String d acc
      else digits_of_pos_aux fuel' (n / 10) (String d acc)
  end.

Definition str_of_Z (z : Z) : string :=
  if Z.ltb z 0 then String "-" (digits_of_pos_aux (S (Z.to_nat (Z.log2_up (- z)))) (- z) "")
  else digits_of_pos_aux (S (Z.to_nat (Z.log2_up z))) z "".

(** ["sep".join(xs)] *)
Fixpoint join (sep : string) (xs : list string) : string :=
  match xs with
  | [] => ""
  | [x] => x
  | x :: xs' => x ++ sep ++ join sep xs'
  end.

(** [repr] of a list of strings without quote characters, as printed by
    an f-string: ['a', 'b'] *)
Definition repr_str_list (xs : list string) : string :=
  "[" ++ join ", " (map (fun x => "'" ++ x ++ "'") xs) ++ "]".

End Py.

(* ------------------------------------------------------------------ *)
(** ** Tables *)

Inductive cell :=
| Null                 (* NaN / None *)
| Str (s : string)
| Int (z : Z)
| Bool (b : bool)
| Flt (z : Z).         (* a float64 equal to the whole number z, |z| < 10^16 *)

#[global] Instance cell_eq_dec : EqDecision cell.
Proof. solve_decision. Defined.

Abbreviation row := (list cell) (only parsing).

Record table := mk_table { columns : list string; rows : list row }.

(** [Series.astype(str)] on one cell. *)
Definition py_str (c : cell) : string :=
  match c with
  | Null => "nan"
  | Str s => s
  | Int z => Py.str_of_Z z
  | Bool true => "True"
  | Bool false => "False"
  | Flt z => Py.str_of_Z z ++ ".0"
  end.

Fixpoint col_index (cols : list string) (name : string) : option nat :=
  match cols with
  | [] => None
  | c :: cs => if String.eqb c name then Some 0 else option_map S (col_index cs name)
  end.

(** [df[name]] read on one row. *)
Definition get (cols : list string) (r : row) (name : string) : cell :=
  match col_index cols name with
  | Some i => default Null (r !! i)
  | None => Null
  end.

(** [df[name] = f(row)]: an existing column is overwritten in place, a new
    one is appended at the end. *)
Definition set_col (name : string) (f : list string -> row -> cell) (t : table) : table :=
  match col_index (columns t) name with
  | Some i => mk_table (columns t) (map (fun r => <[i := f (columns t) r]> r) (rows t))
  | None => mk_table (columns t ++ [name])%list (map (fun r => r ++ [f (columns t) r])%list (rows t))
  end.

(** [df[name] = series] for a series with one value per row, in row
    order (pandas aligns on the index): an existing column is overwritten
    in place, a new one is appended at the end. *)
Definition set_col_values (name : string) (vals : list cell) (t : table) : table :=
  match col_index (columns t) name with
  | Some i => mk_table (columns t) (imap (fun j r => <[i := default Null (vals !! j)]> r) (rows t))
  | None => mk_table (columns t ++ [name])%list (imap (fun j r => r ++ [default Null (vals !! j)])%list (rows t))
  end.

(** Boolean row mask [df[mask]]. *)
Definition filter_rows (p : list string -> row -> bool) (t : table) : table :=
  mk_table (columns t) (List.filter (p (columns t)) (rows t)).

(* ------------------------------------------------------------------ *)
(** ** The stages of [process_site_diary] (src/main.py lines 105-148) *)

Module Pipeline.

Definition required_cols : list string :=
  ["Ignore Entry"; "Internal Use Only"; "Description";
   "Category"; "From"; "Until"; "Ring"; "Shift"; "Duration"].

(** [missing_cols = [c for c in required_cols if c not in df.columns]] *)
Definition missing_cols (t : table) : list string :=
  List.filter (fun c => negb (existsb (String.eqb c) (columns t))) required_cols.

(** [s.astype(str).str.lower().isin(["true", "1", "yes"])] on one cell. *)
Definition truthy : list string := ["true"; "1"; "yes"].

Definition parse_flag (c : cell) : bool :=
  existsb (String.eqb (Py.lower (py_str c))) truthy.

(** Lines 118-119: both flag columns are overwritten by their parse. *)
Definition convert_flags (t : table) : table :=
  set_col "Internal Use Only" (fun cols r => Bool (parse_flag (get cols r "Internal Use Only")))
    (set_col "Ignore Entry" (fun cols r => Bool (parse_flag (get cols r "Ignore Entry"))) t).

(** Line 122: [(df["Ignore Entry"] != True) & (df["Internal Use Only"] != True)] *)
Definition drop_flagged (t : table) : table :=
  filter_rows (fun cols r =>
    negb (bool_decide (get cols r "Ignore Entry" = Bool true)) &&
    negb (bool_decide (get cols r "Internal Use Only" = Bool true))) t.

(** Line 123: [df.dropna(subset=["Description", "Category"])] *)
Definition dropna_desc_cat (t : table) : table :=
  filter_rows (fun cols r =>
    negb (bool_decide (get cols r "Description" = Null)) &&
    negb (bool_decide (get cols r "Category" = Null))) t.

(** The Record Normalizer: lines 117-123. *)
Definition normalize (t : table) : table :=
  dropna_desc_cat (drop_flagged (convert_flags t)).

(** Line 127: [df.drop_duplicates(subset=[...])], keeping the first row of
    every key (missing values compare equal, as in pandas). *)
Definition key_cols : list string := ["From"; "Until"; "Ring"; "Category"; "Description"].

Definition key (cols : list string) (r : row) : list cell := map (get cols r) key_cols.

Fixpoint drop_dup_go (cols : list string) (seen : list (list cell)) (rs : list row) : list row :=
  match rs with
  | [] => []
  | r :: rs' =>
      if bool_decide (key cols r ∈ seen) then drop_dup_go cols seen rs'
      else r :: drop_dup_go cols (key cols r :: seen) rs'
  end.

Definition drop_duplicates (t : table) : table :=
  mk_table (columns t) (drop_dup_go (columns t) [] (rows t)).

(** Lines 128-132: [pd.merge(before, after, how="outer", indicator=True)
    .query('_merge == "left_only"').drop(columns=["_merge"])].  Both frames
    have the same columns, so the merge joins on every column: a row of
    [before] is "left_only" exactly when no row of [after] equals it in all
    columns (missing values join with each other), and each such row shows
    up once.  pandas returns the rows of an outer merge sorted by the join
    keys; that order is not modelled (the rows are kept in input order). *)
Definition merge_left_only (before after : table) : table :=
  mk_table (columns before)
    (List.filter (fun r => negb (bool_decide (r ∈ rows after))) (rows before)).

(** Before merging, [pd.merge(..., indicator=True)] refuses frames that
    hold a column named like one of its helper columns or like the
    indicator column "_merge" (it raises a ValueError with this message). *)
Definition merge_indicator_error (before after : table) : option string :=
  let cols := (columns before ++ columns after)%list in
  if bool_decide ("_left_indicator" ∈ cols) then
    Some "Cannot use `indicator=True` option when data contains a column named _left_indicator"
  else if bool_decide ("_right_indicator" ∈ cols) then
    Some "Cannot use `indicator=True` option when data contains a column named _right_indicator"
  else if bool_decide ("_merge" ∈ cols) then
    Some "Cannot use name of an existing column for indicator column"
  else None.

(** The Deduplicator: the accepted frame and the [filtered_out_df]
    complement, when the merge does not raise. *)
Definition dedup (t : table) : table * table :=
  let df := drop_duplicates t in (df, merge_left_only t df).

(** Lines 135-138: the Category Pruner. *)
Definition categories (t : table) : list cell :=
  map (fun r => get (columns t) r "Category") (rows t).

Fixpoint count_eq (c : cell) (l : list cell) : nat :=
  match l with
  | [] => O
  | x :: l' => (if bool_decide (x = c) then 1 else 0) + count_eq c l'
  end.

Fixpoint distinct_first (seen : list cell) (l : list cell) : list cell :=
  match l with
  | [] => []
  | x :: l' => if bool_decide (x ∈ seen) then distinct_first seen l'
               else x :: distinct_first (x :: seen) l'
  end.

(** [value_counts] sorts by count, largest first. *)
Fixpoint insert_desc (x : cell * nat) (l : list (cell * nat)) : list (cell * nat) :=
  match l with
  | [] => [x]
  | y :: l' => if Nat.leb (snd y) (snd x) then x :: y :: l' else y :: insert_desc x l'
  end.

Fixpoint sort_desc (l : list (cell * nat)) : list (cell * nat) :=
  match l with
  | [] => []
  | x :: l' => insert_desc x (sort_desc l')
  end.

(** [Series.value_counts()]: one entry per distinct non-missing value. *)
Definition value_counts (l : list cell) : list (cell * nat) :=
  sort_desc (map (fun c => (c, count_eq c l))
                 (distinct_first [] (List.filter (fun c => negb (bool_decide (c = Null))) l))).

Record pruned := mk_pruned { kept : table; valid_classes : list cell; filtered_out_classes : list cell }.

Definition prune (t : table) : pruned :=
  let class_counts := value_counts (categories t) in
  let valid_classes := map fst (List.filter (fun p => Nat.leb 2 (snd p)) class_counts) in
  let df := filter_rows (fun cols r => bool_decide (get cols r "Category" ∈ valid_classes)) t in
  let filtered_out_classes := map fst (List.filter (fun p => Nat.ltb (snd p) 2) class_counts) in
  mk_pruned df valid_classes filtered_out_classes.

(** Lines 141-144: the Field Deriver. [str.extract(r"^(Day|Night)")]. *)
Definition shift_type (s : string) : cell :=
  if String.prefix "Day" s then Str "Day"
  else if String.prefix "Night" s then Str "Night"
  else Null.

(** [str.extract(r"(\d+)")]: the first maximal run of digits, or "" when
    there is none ([\d] matches exactly '0'..'9' below U+0100). *)
Fixpoint take_digits (s : string) : string :=
  match s with
  | EmptyString => EmptyString
  | String c s' => if Py.is_digit c then String c (take_digits s') else EmptyString
  end.

Fixpoint first_digit_run (s : string) : string :=
  match s with
  | EmptyString => EmptyString
  | String c s' => if Py.is_digit c then take_digits s else first_digit_run s'
  end.

(** The value of a run of decimal digits. *)
Fixpoint digits_value_aux (acc : Z) (s : string) : Z :=
  match s with
  | EmptyString => acc
  | String c s' => digits_value_aux (10 * acc + Py.digit_value c) s'
  end.

Definition digits_value (s : string) : Z := digits_value_aux 0 s.

(** [df["Duration"].astype(str).str.extract(r"(\d+)")[0]]: one run per
    row, "" standing for the NaN of a row without digits. *)
Definition duration_runs (t : table) : list string :=
  map (fun r => first_digit_run (py_str (get (columns t) r "Duration"))) (rows t).

(** [pd.to_numeric(runs, errors="coerce")].  pandas gives the column one
    dtype: int64 when every row has a run, float64 when some row has none
    (its NaN forces floats).  A run of at most 15 digits is below 2^53, so
    it is converted exactly under either dtype.  A column holding a longer
    run is converted by [wide], pandas' conversion of such a column (int64,
    uint64 or rounded float64, depending on all of its values); rows
    without a run stay NaN. *)
Definition short_run (ds : string) : bool := Nat.leb (String.length ds) 15.

Definition to_numeric (wide : list string -> list cell) (runs : list string) : list cell :=
  if forallb short_run runs then
    if forallb (fun ds => negb (String.eqb ds "")) runs
    then map (fun ds => Int (digits_value ds)) runs
    else map (fun ds => if String.eqb ds "" then Null else Flt (digits_value ds)) runs
  else imap (fun j ds => if String.eqb ds "" then Null else default Null (wide runs !! j)) runs.

(** Lines 141-144; [wide] is the pandas conversion above. *)
Definition derive (wide : list string -> list cell) (t : table) : table :=
  let t1 := set_col "Shift_Type" (fun cols r => shift_type (py_str (get cols r "Shift"))) t in
  set_col_values "Duration_min" (to_numeric wide (duration_runs t1)) t1.

End Pipeline.

(* ------------------------------------------------------------------ *)
(** ** Serialisation: [df.to_csv(index=False, encoding="utf-8-sig").encode()]

    With no target path [DataFrame.to_csv] returns a [str]; its [encoding]
    argument only applies when a file is written, so the text is then
    encoded by [str.encode()], i.e. plain UTF-8.  Fields are written with
    the [csv] module's minimal quoting: a field holding the delimiter, the
    quote character or a line break is put in quotes, inner quotes doubled.
    Missing values are written as empty fields, a float with [repr]. *)

Module Csv.

Definition dq : ascii := "034"%char.
Definition nl : ascii := "010"%char.
Definition cr : ascii := "013"%char.

Definition bytes := list Z.

Fixpoint needs_quote (s : string) : bool :=
  match s with
  | EmptyString => false
  | String c s' =>
      Ascii.eqb c "," || Ascii.eqb c dq || Ascii.eqb c nl || Ascii.eqb c cr || needs_quote s'
  end.

Fixpoint double_quotes (s : string) : string :=
  match s with
  | EmptyString => EmptyString
  | String c s' => if Ascii.eqb c dq then String dq (String dq (double_quotes s'))
                   else String c (double_quotes s')
  end.

Definition field (s : string) : string :=
  if needs_quote s then String dq (double_quotes s ++ String dq EmptyString) else s.

Definition cell_text (c : cell) : string :=
  match c with
  | Null => ""
  | Str s => s
  | Int z => Py.str_of_Z z
  | Bool true => "True"
  | Bool false => "False"
  | Flt z => Py.str_of_Z z ++ ".0"
  end.

Definition line (fields : list string) : string :=
  Py.join "," (map field fields) ++ String nl EmptyString.

Definition to_csv (t : table) : string :=
  line (columns t) ++ String.concat "" (map (fun r => line (map cell_text r)) (rows t)).

(** [str.encode()]: UTF-8 of code points below U+0100. *)
Fixpoint utf8_encode (s : string) : bytes :=
  match s with
  | EmptyString => []
  | String c s' =>
      let n := Z.of_nat (nat_of_ascii c) in
      ((if Z.ltb n 128 then [n] else [192 + n / 64; 128 + n mod 64]) ++ utf8_encode s')%list%Z
  end.

Definition serialize (t : table) : bytes := utf8_encode (to_csv t).

End Csv.

(* ------------------------------------------------------------------ *)
(** ** Effects: the scratch directory, the clock, exceptions *)

Inductive exn :=
| ValueError (msg : string)
| RequestError (msg : string).   (* raised by [requests.get] / [raise_for_status] *)

(** [str(e)] *)
Definition exn_str (e : exn) : string :=
  match e with ValueError m => m | RequestError m => m end.

Inductive decoder := Excel | CsvUtf8 | CsvLatin1.

(** The third-party calls of main.py: the HTTP fetch, the three pandas
    readers ([None] when the reader raises), [uuid.uuid4().hex] (the
    n-th draw), [traceback.format_exc()], and [pd.to_numeric] on a column
    of digit runs some of which exceed 15 digits. *)
Record Lib := mk_lib {
  fetch : string -> string + Csv.bytes;
  read_excel : Csv.bytes -> option table;
  read_csv_utf8 : Csv.bytes -> option table;
  read_csv_latin1 : Csv.bytes -> option table;
  uuid4_hex : nat -> string;
  format_exc : exn -> string;
  to_numeric_wide : list string -> list cell
}.

Record file := mk_file { mtime : Z; content : Csv.bytes }.

Record world := mk_world { fs : gmap string file; clock : Z; uuid_ctr : nat }.

Definition M (A : Type) : Type := world -> world * (exn + A).

Definition mret {A} (x : A) : M A := fun w => (w, inr x).
Definition mraise {A} (e : exn) : M A := fun w => (w, inl e).
Definition mbind {A B} (m : M A) (k : A -> M B) : M B :=
  fun w => match m w with
           | (w', inl e) => (w', inl e)
           | (w', inr x) => k x w'
           end.
Definition mlift {A} (r : exn + A) : M A := fun w => (w, r).

Notation "'let*' x ':=' m 'in' k" := (mbind m (fun x => k))
  (at level 200, x name, m at level 100, k at level 200).

Definition TEMP_DIR := "/tmp/diary_outputs".
Definition FILE_LIFETIME_SECONDS : Z := 600.

(** [save_temp_file] (lines 52-58): write under a fresh uuid name. *)
Definition save_temp_file (L : Lib) (data : Csv.bytes) (suffix : string) : M string :=
  fun w =>
    let fname := uuid4_hex L (uuid_ctr w) ++ "_" ++ suffix ++ ".csv" in
    (mk_world (<[fname := mk_file (clock w) data]> (fs w)) (clock w) (S (uuid_ctr w)), inr fname).

(** [cleanup_old_files] (lines 43-49): drop every file older than the TTL. *)
Definition cleanup_old_files (now : Z) (d : gmap string file) : gmap string file :=
  filter (fun kv => ¬ (now - mtime kv.2 > FILE_LIFETIME_SECONDS)%Z) d.

(* ------------------------------------------------------------------ *)
(** ** [load_file] (lines 69-99)

    The result carries the decoders that were attempted, in order (the
    code prints one line per attempt). *)

Definition load_error_msg (file_url : string) : string :=
  "Unsupported or unreadable file format from: " ++ file_url.

Definition decode (L : Lib) (file_url : string) (data : Csv.bytes)
  : list decoder * (exn + table) :=
  match read_excel L data with
  | Some df => ([Excel], inr df)
  | None =>
    match read_csv_utf8 L data with
    | Some df => ([Excel; CsvUtf8], inr df)
    | None =>
      match read_csv_latin1 L data with
      | Some df => ([Excel; CsvUtf8; CsvLatin1], inr df)
      | None => ([Excel; CsvUtf8; CsvLatin1], inl (ValueError (load_error_msg file_url)))
      end
    end
  end.

Definition load_file (L : Lib) (file_url : string) : list decoder * (exn + table) :=
  match fetch L file_url with
  | inl m => ([], inl (RequestError m))
  | inr data => decode L file_url data
  end.

(* ------------------------------------------------------------------ *)
(** ** [process_site_diary] (lines 105-172) and [run_tool] (lines 178-204) *)

Record result := mk_result {
  cleaned_download_url : string;
  filtered_download_url : string;
  num_cleaned_rows : nat;
  num_filtered_rows : nat;
  categories_retained : list cell;
  categories_removed : list cell;
  cleaned_df_dict : table;
  filtered_out_df_dict : table
}.

Definition DOWNLOAD_BASE := "https://hl2025-hue-cem-diarypreprocessing.onrender.com/download/".

Definition check_columns (df : table) : M unit :=
  match Pipeline.missing_cols df with
  | [] => mret tt
  | missing => mraise (ValueError ("Missing required columns: " ++ Py.repr_str_list missing))
  end.

(** The table stages, lines 117-148 (the [None] replacement of lines
    147-148 is the identity on modelled cells); the merge of line 129 may
    raise. *)
Definition transform (L : Lib) (df : table) : exn + (table * table * Pipeline.pruned) :=
  let df1 := Pipeline.normalize df in
  let '(df2, filtered_out_df) := Pipeline.dedup df1 in
  match Pipeline.merge_indicator_error df1 df2 with
  | Some m => inl (ValueError m)
  | None =>
      let p := Pipeline.prune df2 in
      inr (Pipeline.derive (to_numeric_wide L) (Pipeline.kept p), filtered_out_df, p)
  end.

Definition process_site_diary (L : Lib) (file_url : string) : M result :=
  let* df := mlift (snd (load_file L file_url)) in
  let* _ := check_columns df in
  let* tr := mlift (transform L df) in
  let '(cleaned, filtered_out_df, p) := tr in
  let* cleaned_fname := save_temp_file L (Csv.serialize cleaned) "cleaned" in
  let* filtered_fname := save_temp_file L (Csv.serialize filtered_out_df) "filtered" in
  mret (mk_result (DOWNLOAD_BASE ++ cleaned_fname) (DOWNLOAD_BASE ++ filtered_fname)
          (length (rows cleaned)) (length (rows filtered_out_df))
          (Pipeline.valid_classes p) (Pipeline.filtered_out_classes p)
          cleaned filtered_out_df).

(** The body of [/run]: [clean_json] only rewrites non-finite floats, which
    the modelled cells never are. *)
Inductive response :=
| RunOk (r : result)
| RunError (error file_path exception traceback : string).

Definition run_tool (L : Lib) (file_path : string) : world -> world * response :=
  fun w =>
    match process_site_diary L file_path w with
    | (w', inr r) => (w', RunOk r)
    | (w', inl e) => (w', RunError "Failed to process file." file_path (exn_str e) (format_exc L e))
    end.

(** [download_file] (lines 210-217): sweep, then serve the file or the
    not-found payload.  [os.path.exists(os.path.join(TEMP_DIR, filename))]
    holds for the stored files and for the directory entries "." and ".."
    (a route parameter holds no '/').  For those two the path is a
    directory: [FileResponse] raises [RuntimeError] when it sends the
    response, and the server answers with an internal error. *)
Inductive download_response :=
| FileResponse (data : Csv.bytes)
| FileNotFound
| ServerError (msg : string).

Definition is_dir_entry (filename : string) : bool :=
  String.eqb filename "." || String.eqb filename "..".

Definition download_file (filename : string) (w : world) : world * download_response :=
  let d := cleanup_old_files (clock w) (fs w) in
  let w' := mk_world d (clock w) (uuid_ctr w) in
  if is_dir_entry filename then
    (w', ServerError ("File at path " ++ TEMP_DIR ++ "/" ++ filename ++ " is not a file."))
  else
    match d !! filename with
    | Some f => (w', FileResponse (content f))
    | None => (w', FileNotFound)
    end.

(* ------------------------------------------------------------------ *)
(** ** [clean_json] (lines 185-194), the helper nested in [run_tool]

    JSON-like Python values as the response dictionary holds them.  A
    Python [float] is finite (kept abstractly as mantissa and exponent),
    NaN, or an infinity; [bool] and [int] are not [float]s. *)

Module Json.

Inductive pyfloat :=
| Finite (m e : Z)
| NaN
| PosInf
| NegInf.

#[warnings="-register-all"]
Inductive value :=
| VNone
| VBool (b : bool)
| VInt (z : Z)
| VFloat (f : pyfloat)
| VStr (s : string)
| VList (l : list value)
| VDict (kvs : list (string * value)).

(** [np.isnan(obj) or np.isinf(obj)] *)
Definition nonfinite (f : pyfloat) : bool :=
  match f with Finite _ _ => false | _ => true end.

Fixpoint clean_json (obj : value) : value :=
  match obj with
  | VList l => VList (map clean_json l)
  | VDict kvs => VDict (map (fun kv => (kv.1, clean_json kv.2)) kvs)
  | VFloat f => if nonfinite f then VNone else VFloat f
  | _ => obj
  end.

(** No NaN or infinity anywhere inside a value. *)
Fixpoint all_finite (obj : value) : bool :=
  match obj with
  | VList l => forallb all_finite l
  | VDict kvs => forallb (fun kv => all_finite kv.2) kvs
  | VFloat f => negb (nonfinite f)
  | _ => true
  end.

End Json.

(** Occurrences of one character in a text. *)
Fixpoint count_char (c : ascii) (s : string) : nat :=
  match s with
  | EmptyString => O
  | String d s' => (if Ascii.eqb d c then 1 else 0) + count_char c s'
  end.

(* ------------------------------------------------------------------ *)
(** ** Readings of the specification, to compare the code with *)

Module SpecSide.

(** Case-insensitive equality of characters: equal, or an ASCII letter
    and its other-case form. *)
Definition ci_char (a b : ascii) : bool :=
  let x := nat_of_ascii a in
  let y := nat_of_ascii b in
  Nat.eqb x y
  || (Nat.leb 65 x && Nat.leb x 90 && Nat.eqb y (x + 32))
  || (Nat.leb 65 y && Nat.leb y 90 && Nat.eqb x (y + 32)).

Fixpoint ci_match (s t : string) : bool :=
  match s, t with
  | EmptyString, EmptyString => true
  | String a s', String b t' => ci_char a b && ci_match s' t'
  | _, _ => false
  end.




Fixpoint all_digits (s : string) : bool :=
  match s with
  | EmptyString => true
  | String c s' => Py.is_digit c && all_digits s'
  end.





End SpecSide.

(** Rectangular tables: every row has one cell per column (true of every
    pandas frame). *)
Definition table_wf (t : table) : Prop :=
  Forall (fun r => length r = length (columns t)) (rows t).



(* ------------------------------------------------------------------ *)
(** ** Sample inputs *)

Module Samples.

(** A row in the column order of [Pipeline.required_cols]. *)
Definition diary_row (ignore internal desc cat from until ring shift dur : cell) : row :=
  [ignore; internal; desc; cat; from; until; ring; shift; dur].

Definition entry (desc cat ring shift dur : string) : row :=
  diary_row (Str "no") (Str "No") (Str desc) (Str cat) (Str "08:00") (Str "09:00")
    (Str ring) (Str shift) (Str dur).

Definition pour := entry "Pour slab" "Concrete" "R1" "Night Shift - extended" "approx 45 mins".

(** Two rows equal in every column. *)
Definition t_dup : table := mk_table Pipeline.required_cols [pour; pour].


Definition t_demo : table :=
  mk_table Pipeline.required_cols
    [pour;
     entry "Pour slab" "Concrete" "R1" "Day shift" "30 min";
     entry "Rebar check" "Concrete" "R2" "Morning" "unspecified";
     diary_row (Str "YES") (Str "0") (Str "Crane") (Str "Lifting") (Str "10:00")
       (Str "11:00") (Str "R3") (Str "Day") (Str "15");
     entry "Site walk" "Safety" "R1" "Day" "20"].

(** The Shift and Duration examples of the specification. *)
Definition t_shift : table :=
  mk_table ["Shift"; "Duration"]
    [[Str "Night Shift - extended"; Str "approx 45 mins"]; [Str "Morning"; Str "unspecified"]].

(** A table with a column named "_merge". *)
Definition t_merge : table :=
  mk_table (Pipeline.required_cols ++ ["_merge"])%list [(pour ++ [Str "x"])%list].

(** A table lacking the Shift and Duration columns. *)
Definition t_missing : table :=
  mk_table ["Ignore Entry"; "Internal Use Only"; "Description"; "Category";
            "From"; "Until"; "Ring"]
    [[Str "no"; Str "no"; Str "Walk"; Str "Safety"; Str "08:00"; Str "09:00"; Str "R1"]].

Definition lib_with (excel utf8 latin1 : option table) : Lib :=
  mk_lib (fun _ => inr []) (fun _ => excel) (fun _ => utf8) (fun _ => latin1)
    (fun n => Py.str_of_Z (Z.of_nat n)) (fun e => exn_str e) (fun runs => map (fun _ => Null) runs).

Definition url := "https://example.org/diary.xlsx".

Definition w0 : world := mk_world ∅ 1000 0.

Definition sample_file : file := mk_file 900 [104%Z; 105%Z].
Definition w_store : world := mk_world {[ "a_cleaned.csv" := sample_file ]} 1000 0.

(** A response fragment with a finite float inside. *)
Definition payload : Json.value :=
  Json.VDict [("num_cleaned_rows", Json.VInt 3);
              ("rows", Json.VList [Json.VFloat (Json.Finite 45 0); Json.VStr "Day"; Json.VNone])].

End Samples.

(* ================================================================== *)
(** * Proofs *)

Module FlagProofs.

Lemma lower_char_ci (c d : ascii) :
  d ∈ ["t"; "r"; "u"; "e"; "1"; "y"; "s"]%char →
  Ascii.eqb (Py.lower_char c) d = SpecSide.ci_char c d.
Proof.
  intros Hd.
  repeat (apply elem_of_cons in Hd as [-> | Hd]);
    [.. | by apply elem_of_nil in Hd];
    destruct c as [[] [] [] [] [] [] [] []]; reflexivity.
Qed.

Lemma lower_ci_match (s t : string) :
  Forall (fun d => d ∈ ["t"; "r"; "u"; "e"; "1"; "y"; "s"]%char) (list_ascii_of_string t) →
  String.eqb (Py.lower s) t = SpecSide.ci_match s t.
Proof.
  revert t. induction s as [|c s IH]; intros t Ht; destruct t as [|d t]; try reflexivity.
  cbn [list_ascii_of_string] in Ht. apply Forall_cons in Ht as [Hd Ht].
  change (Py.lower (String c s)) with (String (Py.lower_char c) (Py.lower s)).
  change (SpecSide.ci_match (String c s) (String d t))
    with (SpecSide.ci_char c d && SpecSide.ci_match s t).
  rewrite <- (lower_char_ci c d Hd), <- (IH t Ht).
  simpl. destruct (Ascii.eqb_spec (Py.lower_char c) d); reflexivity.
Qed.

End FlagProofs.

Lemma parse_flag_str (s : string) :
  Pipeline.parse_flag (Str s) =
  SpecSide.ci_match s "true" || SpecSide.ci_match s "1" || SpecSide.ci_match s "yes".
Proof.
  unfold Pipeline.parse_flag, Pipeline.truthy. simpl py_str. simpl existsb.
  rewrite !FlagProofs.lower_ci_match; [by rewrite orb_false_r, orb_assoc | ..];
    simpl; repeat constructor; set_solver.
Qed.

(** C8: a textual flag value parses to true exactly when it equals one of
    "true", "1", "yes" up to letter case; every other text, the empty
    string included, parses to false. *)
Theorem parse_flag_spec (s : string) :
  (Pipeline.parse_flag (Str s) = true ↔
     ∃ t, t ∈ Pipeline.truthy ∧ SpecSide.ci_match s t = true) ∧
  (Pipeline.parse_flag (Str s) = false ↔
     ∀ t, t ∈ Pipeline.truthy → SpecSide.ci_match s t = false) ∧
  Pipeline.parse_flag (Str "") = false.
Proof.
  rewrite parse_flag_str. unfold Pipeline.truthy. split; [|split; [|reflexivity]].
  - rewrite !orb_true_iff. split.
    + intros [[H|H]|H]; eexists; split; [|exact H| |exact H| |exact H]; set_solver.
    + intros (t & Ht & H). repeat (apply elem_of_cons in Ht as [-> | Ht]); [tauto..|].
      by apply elem_of_nil in Ht.
  - rewrite !orb_false_iff. split.
    + intros [[H1 H2] H3] t Ht. repeat (apply elem_of_cons in Ht as [-> | Ht]); [done..|].
      by apply elem_of_nil in Ht.
    + intros H. repeat split; apply H; set_solver.
Qed.

(* ------------------------------------------------------------------ *)
(** ** Column access and assignment *)

Module TableFacts.

Definition set_cols (cols : list string) (n : string) : list string :=
  match col_index cols n with Some _ => cols | None => (cols ++ [n])%list end.

Definition set_cell (cols : list string) (n : string) (v : cell) (r : row) : row :=
  match col_index cols n with Some i => <[i := v]> r | None => (r ++ [v])%list end.

Lemma set_col_eq n f t :
  set_col n f t =
  mk_table (set_cols (columns t) n)
    (map (fun r => set_cell (columns t) n (f (columns t) r) r) (rows t)).
Proof. unfold set_col, set_cols, set_cell. by destruct (col_index (columns t) n). Qed.

Lemma set_col_values_eq n vals t :
  set_col_values n vals t =
  mk_table (set_cols (columns t) n)
    (imap (fun j r => set_cell (columns t) n (default Null (vals !! j)) r) (rows t)).
Proof. unfold set_col_values, set_cols, set_cell. by destruct (col_index (columns t) n). Qed.

Lemma lookup_map {A B} (f : A → B) (l : list A) (i : nat) :
  map f l !! i = option_map f (l !! i).
Proof. revert i. induction l as [|x l IH]; intros [|i]; simpl; auto. Qed.

Lemma col_index_lookup cols m j : col_index cols m = Some j → cols !! j = Some m.
Proof.
  revert j. induction cols as [|c cs IH]; intros j H; simpl in H; [done|].
  destruct (String.eqb_spec c m) as [->|]; [by injection H as <-|].
  destruct (col_index cs m) eqn:E; simpl in H; [|done].
  injection H as <-. simpl. by apply IH.
Qed.

Lemma col_index_None cols m : col_index cols m = None ↔ m ∉ cols.
Proof.
  induction cols as [|c cs IH]; simpl; [split; [intros _; apply not_elem_of_nil|done]|].
  rewrite not_elem_of_cons, <- IH.
  destruct (String.eqb_spec c m) as [->|Hne].
  - split; [discriminate|]. intros [H _]. by destruct H.
  - destruct (col_index cs m); simpl; split.
    + discriminate.
    + intros [_ H]. discriminate.
    + intros _. split; congruence.
    + done.
Qed.

Lemma col_index_app cols n m :
  col_index (cols ++ [n])%list m =
  match col_index cols m with
  | Some j => Some j
  | None => if String.eqb n m then Some (length cols) else None
  end.
Proof.
  induction cols as [|c cs IH]; simpl; [by destruct (String.eqb n m)|].
  destruct (String.eqb c m); [done|]. rewrite IH.
  destruct (col_index cs m); simpl; [done|]. by destruct (String.eqb n m).
Qed.

Lemma set_cell_length cols n v r :
  length r = length cols → length (set_cell cols n v r) = length (set_cols cols n).
Proof.
  intros H. unfold set_cell, set_cols. destruct (col_index cols n); [by rewrite length_insert|].
  rewrite !length_app. simpl. lia.
Qed.

Lemma get_set_cell_same cols n v r :
  length r = length cols → get (set_cols cols n) (set_cell cols n v r) n = v.
Proof.
  intros H. unfold get, set_cols, set_cell.
  destruct (col_index cols n) as [i|] eqn:E.
  - rewrite E. apply col_index_lookup, lookup_lt_Some in E.
    rewrite list_lookup_insert_eq; [done|lia].
  - rewrite col_index_app, E, String.eqb_refl.
    rewrite lookup_app_r, H, Nat.sub_diag; [done|lia].
Qed.

Lemma get_set_cell_other cols n m v r :
  m ≠ n → length r = length cols →
  get (set_cols cols n) (set_cell cols n v r) m = get cols r m.
Proof.
  intros Hne H. unfold get, set_cols, set_cell.
  destruct (col_index cols n) as [i|] eqn:E.
  - destruct (col_index cols m) as [j|] eqn:Em; [|done].
    rewrite list_lookup_insert_ne; [done|].
    intros ->. apply col_index_lookup in E, Em. congruence.
  - rewrite col_index_app.
    destruct (col_index cols m) as [j|] eqn:Em.
    + apply col_index_lookup, lookup_lt_Some in Em. by rewrite lookup_app_l by lia.
    + destruct (String.eqb_spec n m); congruence.
Qed.

Lemma set_col_wf n f t : table_wf t → table_wf (set_col n f t).
Proof.
  unfold table_wf. rewrite set_col_eq. simpl. intros Hwf.
  apply Forall_map. eapply Forall_impl; [exact Hwf|]. intros r Hr. by apply set_cell_length.
Qed.

Lemma filter_rows_wf p t : table_wf t → table_wf (filter_rows p t).
Proof.
  unfold table_wf, filter_rows. simpl. intros Hwf.
  apply List.Forall_forall. intros r Hr. apply List.filter_In in Hr as [Hr _].
  by eapply List.Forall_forall in Hwf; [|exact Hr].
Qed.

Lemma filter_rows_in p t r :
  In r (rows (filter_rows p t)) ↔ In r (rows t) ∧ p (columns t) r = true.
Proof. apply filter_In. Qed.

End TableFacts.

(* ------------------------------------------------------------------ *)
(** ** The Field Deriver *)

Module DeriveFacts.

Lemma prefix_iff (p s : string) : String.prefix p s = true ↔ ∃ rest, s = p ++ rest.
Proof.
  revert s. induction p as [|a p IH]; intros s; destruct s as [|b s]; simpl.
  - split; [intros _; by exists EmptyString|intros _; reflexivity].
  - split; [intros _; by exists (String b s)|intros _; reflexivity].
  - split; [done|]. intros [rest H]. discriminate.
  - destruct (ascii_dec a b) as [->|Hne]; rewrite ?IH.
    + split; intros [rest H]; exists rest; [by rewrite H|by injection H].
    + split; [done|]. intros [rest H]. injection H. congruence.
Qed.







Lemma duration_runs_shift (f : list string → row → cell) (t : table) :
  table_wf t → Pipeline.duration_runs (set_col "Shift_Type" f t) = Pipeline.duration_runs t.
Proof.
  intros Hwf. unfold Pipeline.duration_runs. rewrite TableFacts.set_col_eq. cbn [columns rows].
  rewrite map_map. apply List.map_ext_in. intros r Hr.
  assert (Hlen : length r = length (columns t)) by (eapply List.Forall_forall in Hwf; [exact Hwf|exact Hr]).
  by rewrite TableFacts.get_set_cell_other.
Qed.

Lemma derive_length (wide : list string → list cell) (t : table) :
  length (rows (Pipeline.derive wide t)) = length (rows t).
Proof.
  unfold Pipeline.derive. rewrite TableFacts.set_col_values_eq, TableFacts.set_col_eq.
  cbn [rows]. by rewrite length_imap, length_map.
Qed.

Lemma derive_columns (wide : list string → list cell) (t : table) :
  columns (Pipeline.derive wide t) =
  TableFacts.set_cols (TableFacts.set_cols (columns t) "Shift_Type") "Duration_min".
Proof.
  unfold Pipeline.derive. rewrite TableFacts.set_col_values_eq, TableFacts.set_col_eq. reflexivity.
Qed.

(** Row [i] of the deriver's output: Shift_Type from the same row, the
    [i]-th converted run as Duration_min, the other cells unchanged. *)
Lemma derive_row (wide : list string → list cell) (t : table) (i : nat) (r : row) :
  table_wf t → rows t !! i = Some r →
  ∃ r', rows (Pipeline.derive wide t) !! i = Some r' ∧
    get (columns (Pipeline.derive wide t)) r' "Shift_Type" =
      Pipeline.shift_type (py_str (get (columns t) r "Shift")) ∧
    get (columns (Pipeline.derive wide t)) r' "Duration_min" =
      default Null (Pipeline.to_numeric wide (Pipeline.duration_runs t) !! i) ∧
    ∀ m, m ≠ "Shift_Type" → m ≠ "Duration_min" →
      get (columns (Pipeline.derive wide t)) r' m = get (columns t) r m.
Proof.
  intros Hwf Hr. rewrite derive_columns. unfold Pipeline.derive.
  rewrite duration_runs_shift by exact Hwf.
  rewrite TableFacts.set_col_values_eq, TableFacts.set_col_eq. cbn [columns rows].
  rewrite list_lookup_imap, TableFacts.lookup_map, Hr. cbn [option_map fmap option_fmap option_map].
  eexists. split; [reflexivity|].
  assert (Hlen : length r = length (columns t)).
  { unfold table_wf in Hwf. rewrite List.Forall_forall in Hwf. apply Hwf.
    apply list_elem_of_In. by eapply list_elem_of_lookup_2. }
  set (v1 := Pipeline.shift_type (py_str (get (columns t) r "Shift"))).
  pose proof (TableFacts.set_cell_length (columns t) "Shift_Type" v1 r Hlen) as Hlen1.
  split; [|split].
  - rewrite TableFacts.get_set_cell_other by done. by rewrite TableFacts.get_set_cell_same.
  - by rewrite TableFacts.get_set_cell_same.
  - intros m H1 H2. rewrite TableFacts.get_set_cell_other by done.
    by rewrite TableFacts.get_set_cell_other.
Qed.


End DeriveFacts.



(* ------------------------------------------------------------------ *)
(** ** The Record Normalizer *)

Module NormalizeFacts.

Lemma convert_flags_rows (t : table) (r : row) :
  table_wf t → In r (rows (Pipeline.convert_flags t)) →
  ∃ r0, In r0 (rows t) ∧
    get (columns (Pipeline.convert_flags t)) r "Ignore Entry"
      = Bool (Pipeline.parse_flag (get (columns t) r0 "Ignore Entry")) ∧
    get (columns (Pipeline.convert_flags t)) r "Internal Use Only"
      = Bool (Pipeline.parse_flag (get (columns t) r0 "Internal Use Only")).
Proof.
  intros Hwf Hin. unfold Pipeline.convert_flags in *.
  rewrite !TableFacts.set_col_eq in Hin |- *. simpl in Hin |- *.
  apply in_map_iff in Hin as (r1 & <- & Hr1).
  apply in_map_iff in Hr1 as (r0 & <- & Hr0).
  exists r0. split; [exact Hr0|].
  assert (Hlen : length r0 = length (columns t))
    by (eapply List.Forall_forall in Hwf; [exact Hwf|exact Hr0]).
  pose proof (TableFacts.set_cell_length (columns t) "Ignore Entry"
    (Bool (Pipeline.parse_flag (get (columns t) r0 "Ignore Entry"))) r0 Hlen) as Hlen1.
  split.
  - rewrite TableFacts.get_set_cell_other by done. by rewrite TableFacts.get_set_cell_same.
  - rewrite TableFacts.get_set_cell_same by done.
    by rewrite TableFacts.get_set_cell_other.
Qed.

Lemma normalize_columns (t : table) :
  columns (Pipeline.normalize t) = columns (Pipeline.convert_flags t).
Proof. reflexivity. Qed.

Lemma normalize_rows (t : table) (r : row) :
  In r (rows (Pipeline.normalize t)) ↔
  In r (rows (Pipeline.convert_flags t)) ∧
  get (columns (Pipeline.convert_flags t)) r "Ignore Entry" ≠ Bool true ∧
  get (columns (Pipeline.convert_flags t)) r "Internal Use Only" ≠ Bool true ∧
  get (columns (Pipeline.convert_flags t)) r "Description" ≠ Null ∧
  get (columns (Pipeline.convert_flags t)) r "Category" ≠ Null.
Proof.
  unfold Pipeline.normalize, Pipeline.dropna_desc_cat, Pipeline.drop_flagged.
  rewrite !TableFacts.filter_rows_in. simpl.
  rewrite !andb_true_iff, !negb_true_iff, !bool_decide_eq_false. tauto.
Qed.

Lemma normalize_sub (t : table) (r : row) :
  In r (rows (Pipeline.normalize t)) →
  get (columns (Pipeline.normalize t)) r "Category" ≠ Null.
Proof. rewrite normalize_rows. tauto. Qed.







End NormalizeFacts.




(* ------------------------------------------------------------------ *)
(** ** The Deduplicator *)

Module DedupFacts.

(** The rejected rows never equal an accepted row. *)
Lemma dedup_disjoint (t : table) (r : row) :
  In r (rows (snd (Pipeline.dedup t))) → ¬ In r (rows (fst (Pipeline.dedup t))).
Proof.
  simpl. unfold Pipeline.merge_left_only. simpl.
  intros Hr. apply filter_In in Hr as [_ Hr].
  apply negb_true_iff, bool_decide_eq_false in Hr. rewrite list_elem_of_In in Hr. exact Hr.
Qed.

End DedupFacts.

(** C1 (code_bug): two diary rows equal in every column.  The
    normalizer keeps both; [drop_duplicates] keeps one.  The outer merge
    then matches each copy with the kept row, so neither copy is
    "left_only": the complement is empty, and accepted plus rejected
    holds one row where the normalizer output holds two. *)
Theorem dedup_full_row_duplicate_lost :
  let N := Pipeline.normalize Samples.t_dup in
  length (rows N) = 2 ∧
  length (rows (fst (Pipeline.dedup N))) = 1 ∧
  rows (snd (Pipeline.dedup N)) = [] ∧
  ¬ Permutation (rows (fst (Pipeline.dedup N)) ++ rows (snd (Pipeline.dedup N)))%list (rows N).
Proof.
  vm_compute. split; [reflexivity|]. split; [reflexivity|]. split; [reflexivity|].
  intros Hp. apply Permutation_length in Hp. discriminate.
Qed.

(* ------------------------------------------------------------------ *)
(** ** The Category Pruner *)

Module PruneFacts.

Lemma elem_of_List_filter {A} (f : A → bool) (x : A) (l : list A) :
  x ∈ List.filter f l ↔ x ∈ l ∧ f x = true.
Proof. rewrite !list_elem_of_In. apply filter_In. Qed.

Lemma distinct_first_elem (seen l : list cell) (x : cell) :
  x ∈ Pipeline.distinct_first seen l ↔ x ∈ l ∧ x ∉ seen.
Proof.
  revert seen. induction l as [|y l IH]; intros seen; simpl.
  - split; [intros H; by apply elem_of_nil in H|intros [H _]; by apply elem_of_nil in H].
  - case_bool_decide as Hy.
    + rewrite IH, elem_of_cons. split; [tauto|]. intros [[->|H] Hn]; [done|tauto].
    + rewrite elem_of_cons, IH. rewrite !elem_of_cons. split.
      * intros [->|[H Hn]]; [split; [by left|exact Hy]|tauto].
      * intros [[->|H] Hn]; [by left|].
        destruct (decide (x = y)) as [->|Hne]; [by left|right; tauto].
Qed.

Lemma distinct_first_nodup (seen l : list cell) : NoDup (Pipeline.distinct_first seen l).
Proof.
  revert seen. induction l as [|y l IH]; intros seen; simpl; [constructor|].
  case_bool_decide; [apply IH|].
  constructor; [|apply IH]. rewrite distinct_first_elem, elem_of_cons. tauto.
Qed.

Lemma insert_desc_perm (x : cell * nat) (l : list (cell * nat)) :
  Permutation (Pipeline.insert_desc x l) (x :: l).
Proof.
  induction l as [|y l IH]; simpl; [done|].
  destruct (Nat.leb (snd y) (snd x)); [done|].
  rewrite IH. apply perm_swap.
Qed.

Lemma sort_desc_perm (l : list (cell * nat)) : Permutation (Pipeline.sort_desc l) l.
Proof.
  induction l as [|x l IH]; simpl; [done|]. rewrite insert_desc_perm. by rewrite IH.
Qed.

Definition present (l : list cell) : list cell :=
  Pipeline.distinct_first [] (List.filter (fun c => negb (bool_decide (c = Null))) l).

Lemma present_elem (l : list cell) (c : cell) : c ∈ present l ↔ c ∈ l ∧ c ≠ Null.
Proof.
  unfold present. rewrite distinct_first_elem, elem_of_List_filter, negb_true_iff,
    bool_decide_eq_false. split; [tauto|]. intros [H1 H2]. split; [tauto|apply not_elem_of_nil].
Qed.

Lemma value_counts_elem (l : list cell) (c : cell) (n : nat) :
  (c, n) ∈ Pipeline.value_counts l ↔ c ∈ l ∧ c ≠ Null ∧ n = Pipeline.count_eq c l.
Proof.
  unfold Pipeline.value_counts. fold (present l).
  rewrite list_elem_of_In.
  split.
  - intros H. apply (Permutation_in _ (sort_desc_perm _)) in H.
    apply in_map_iff in H as (d & Hd & Hin). injection Hd as -> ->.
    apply list_elem_of_In, present_elem in Hin. tauto.
  - intros (H1 & H2 & ->). apply (Permutation_in _ (Permutation_sym (sort_desc_perm _))).
    apply in_map_iff. exists c. split; [done|]. apply list_elem_of_In, present_elem. tauto.
Qed.

Lemma value_counts_keys_nodup (l : list cell) : NoDup (map fst (Pipeline.value_counts l)).
Proof.
  unfold Pipeline.value_counts. fold (present l).
  assert (Hp : Permutation (map fst (Pipeline.sort_desc
                 (map (fun c => (c, Pipeline.count_eq c l)) (present l))))
                (map fst (map (fun c => (c, Pipeline.count_eq c l)) (present l))))
    by (apply Permutation_map, sort_desc_perm).
  rewrite Hp, map_map. simpl. rewrite map_id. apply distinct_first_nodup.
Qed.

Lemma elem_of_map_fst_filter (f : cell * nat → bool) (vc : list (cell * nat)) (c : cell) :
  c ∈ map fst (List.filter f vc) ↔ ∃ n, (c, n) ∈ vc ∧ f (c, n) = true.
Proof.
  rewrite list_elem_of_In, in_map_iff. split.
  - intros ([c' n] & <- & H). apply list_elem_of_In, elem_of_List_filter in H. by exists n.
  - intros (n & H & Hf). exists (c, n). split; [done|].
    apply list_elem_of_In, elem_of_List_filter. done.
Qed.

Lemma nodup_partition (p : nat → bool) (vc : list (cell * nat)) :
  NoDup (map fst vc) →
  NoDup (map fst (List.filter (fun q => p (snd q)) vc) ++
         map fst (List.filter (fun q => negb (p (snd q))) vc))%list.
Proof.
  induction vc as [|[c n] vc IH]; simpl; [constructor|].
  intros Hnd. apply NoDup_cons in Hnd as [Hc Hnd].
  assert (Hout : c ∉ (map fst (List.filter (fun q => p (snd q)) vc) ++
                      map fst (List.filter (fun q => negb (p (snd q))) vc))%list).
  { rewrite elem_of_app, !elem_of_map_fst_filter. intros [(m & Hm & _)|(m & Hm & _)];
      apply Hc, list_elem_of_In, in_map_iff; exists (c, m); split; try done;
      by apply list_elem_of_In. }
  destruct (p n); simpl.
  - constructor; [exact Hout|by apply IH].
  - rewrite <- Permutation_middle.
    constructor; [exact Hout|by apply IH].
Qed.

End PruneFacts.

Module DedupCategories.

Lemma drop_dup_go_incl (cols : list string) (seen : list (list cell)) (L : list row) (r : row) :
  In r (Pipeline.drop_dup_go cols seen L) → In r L.
Proof.
  revert seen. induction L as [|x L IH]; intros seen; simpl; [done|].
  case_bool_decide; [intros Hin; right; by eapply IH|].
  intros [->|Hin]; [by left|right; by eapply IH].
Qed.

Lemma drop_dup_go_cover (cols : list string) (seen : list (list cell)) (L : list row) (r : row) :
  In r L →
  Pipeline.key cols r ∈ seen ∨
  ∃ r', In r' (Pipeline.drop_dup_go cols seen L) ∧ Pipeline.key cols r' = Pipeline.key cols r.
Proof.
  revert seen. induction L as [|x L IH]; intros seen; simpl; [done|].
  intros [->|Hr]; case_bool_decide as Hx.
  - by left.
  - right. exists r. split; [by left|done].
  - by apply IH.
  - destruct (IH (Pipeline.key cols x :: seen) Hr) as [Hk|(r' & Hr' & Hk)].
    + apply elem_of_cons in Hk as [Hk|Hk]; [|by left].
      right. exists x. split; [by left|done].
    + right. exists r'. split; [by right|done].
Qed.

Lemma key_category (cols : list string) (r r' : row) :
  Pipeline.key cols r = Pipeline.key cols r' → get cols r "Category" = get cols r' "Category".
Proof. unfold Pipeline.key. simpl. intros H. by injection H. Qed.

Lemma categories_dedup (N : table) (c : cell) :
  c ∈ Pipeline.categories (fst (Pipeline.dedup N)) ↔ c ∈ Pipeline.categories N.
Proof.
  unfold Pipeline.categories. simpl. rewrite !list_elem_of_In, !in_map_iff. split.
  - intros (r & <- & Hr). exists r. split; [done|]. by eapply drop_dup_go_incl.
  - intros (r & <- & Hr).
    destruct (drop_dup_go_cover (columns N) [] (rows N) r Hr) as [Hk|(r' & Hr' & Hk)];
      [by apply elem_of_nil in Hk|].
    exists r'. split; [by apply key_category|done].
Qed.

Lemma categories_normalize_not_null (t : table) :
  Null ∉ Pipeline.categories (Pipeline.normalize t).
Proof.
  unfold Pipeline.categories. rewrite list_elem_of_In, in_map_iff.
  intros (r & Hc & Hr). by apply NormalizeFacts.normalize_sub in Hr.
Qed.

End DedupCategories.

(** C3: with the single threshold 2 used on both sides, the retained
    categories are exactly the distinct categories of the pruner's input
    counted at least twice there, the removed ones exactly those counted
    fewer times; the two lists have no repeats and nothing in common, they
    list the categories of the normalizer's output, and every row the
    pruner keeps has a category counted at least twice. *)
Theorem prune_partition (t : table) :
  let N := Pipeline.normalize t in
  let P := fst (Pipeline.dedup N) in
  let pr := Pipeline.prune P in
  (∀ c, c ∈ Pipeline.valid_classes pr ↔
          c ∈ Pipeline.categories P ∧ (2 ≤ Pipeline.count_eq c (Pipeline.categories P))%nat) ∧
  (∀ c, c ∈ Pipeline.filtered_out_classes pr ↔
          c ∈ Pipeline.categories P ∧ (Pipeline.count_eq c (Pipeline.categories P) < 2)%nat) ∧
  NoDup (Pipeline.valid_classes pr ++ Pipeline.filtered_out_classes pr)%list ∧
  (∀ c, c ∈ Pipeline.categories N ↔
          c ∈ (Pipeline.valid_classes pr ++ Pipeline.filtered_out_classes pr)%list) ∧
  (∀ r, In r (rows (Pipeline.kept pr)) →
          (2 ≤ Pipeline.count_eq (get (columns P) r "Category") (Pipeline.categories P))%nat).
Proof.
  intros N P pr.
  assert (Hnn : ∀ c, c ∈ Pipeline.categories P → c ≠ Null).
  { intros c Hc ->. apply (DedupCategories.categories_dedup N) in Hc.
    by apply (DedupCategories.categories_normalize_not_null t). }
  assert (Hvalid : ∀ c, c ∈ Pipeline.valid_classes pr ↔
            c ∈ Pipeline.categories P ∧ (2 ≤ Pipeline.count_eq c (Pipeline.categories P))%nat).
  { intros c. subst pr. unfold Pipeline.prune. cbn [Pipeline.valid_classes Pipeline.filtered_out_classes].
    rewrite PruneFacts.elem_of_map_fst_filter. split.
    - intros (n & Hn & Hle). apply PruneFacts.value_counts_elem in Hn as (H1 & _ & ->).
      cbn [snd] in Hle. apply Nat.leb_le in Hle. done.
    - intros [H1 H2]. exists (Pipeline.count_eq c (Pipeline.categories P)).
      rewrite PruneFacts.value_counts_elem. cbn [snd]. rewrite Nat.leb_le.
      split; [split; [done|split; [by apply Hnn|done]]|done]. }
  assert (Hremoved : ∀ c, c ∈ Pipeline.filtered_out_classes pr ↔
            c ∈ Pipeline.categories P ∧ (Pipeline.count_eq c (Pipeline.categories P) < 2)%nat).
  { intros c. subst pr. unfold Pipeline.prune. cbn [Pipeline.valid_classes Pipeline.filtered_out_classes].
    rewrite PruneFacts.elem_of_map_fst_filter. split.
    - intros (n & Hn & Hlt). apply PruneFacts.value_counts_elem in Hn as (H1 & _ & ->).
      cbn [snd] in Hlt. apply Nat.ltb_lt in Hlt. done.
    - intros [H1 H2]. exists (Pipeline.count_eq c (Pipeline.categories P)).
      rewrite PruneFacts.value_counts_elem. cbn [snd]. rewrite Nat.ltb_lt.
      split; [split; [done|split; [by apply Hnn|done]]|done]. }
  split; [exact Hvalid|]. split; [exact Hremoved|]. split; [|split].
  - subst pr. unfold Pipeline.prune. cbn [Pipeline.valid_classes Pipeline.filtered_out_classes].
    rewrite (List.filter_ext (fun p => Nat.ltb (snd p) 2) (fun q => negb (Nat.leb 2 (snd q)))).
    + apply (PruneFacts.nodup_partition (Nat.leb 2)), PruneFacts.value_counts_keys_nodup.
    + intros [c n]. cbn [snd]. destruct (Nat.ltb_spec n 2), (Nat.leb_spec 2 n); simpl; try reflexivity; lia.
  - intros c. rewrite elem_of_app, Hvalid, Hremoved. subst P.
    rewrite (DedupCategories.categories_dedup N).
    destruct (Nat.le_gt_cases 2 (Pipeline.count_eq c (Pipeline.categories (fst (Pipeline.dedup N))))); tauto.
  - intros r Hr. subst pr. unfold Pipeline.prune in Hr. cbn [Pipeline.kept] in Hr.
    apply TableFacts.filter_rows_in in Hr as [_ Hr]. apply bool_decide_eq_true in Hr.
    apply (proj1 (Hvalid _)) in Hr. tauto.
Qed.

(* ------------------------------------------------------------------ *)
(** ** The Source Loader *)

(** C5: once the bytes are fetched, the loader tries the spreadsheet
    reader, then UTF-8 CSV, then Latin-1 CSV, stops at the first that
    succeeds, and when all three fail raises an error whose message is
    "Unsupported or unreadable file format from: " followed by the
    source location. *)
Theorem load_file_order (L : Lib) (file_url : string) (data : Csv.bytes)
  (Hfetch : fetch L file_url = inr data) :
  (∀ df, read_excel L data = Some df →
     load_file L file_url = ([Excel], inr df)) ∧
  (∀ df, read_excel L data = None → read_csv_utf8 L data = Some df →
     load_file L file_url = ([Excel; CsvUtf8], inr df)) ∧
  (∀ df, read_excel L data = None → read_csv_utf8 L data = None →
     read_csv_latin1 L data = Some df →
     load_file L file_url = ([Excel; CsvUtf8; CsvLatin1], inr df)) ∧
  (read_excel L data = None → read_csv_utf8 L data = None → read_csv_latin1 L data = None →
     load_file L file_url =
       ([Excel; CsvUtf8; CsvLatin1],
        inl (ValueError ("Unsupported or unreadable file format from: " ++ file_url)))).
Proof.
  unfold load_file, decode, load_error_msg. rewrite Hfetch.
  split; [intros df ->; reflexivity|].
  split; [intros df -> ->; reflexivity|].
  split; [intros df -> -> ->; reflexivity|].
  intros -> -> ->. reflexivity.
Qed.

Lemma load_file_order_witness :
  fetch (Samples.lib_with None None (Some Samples.t_demo)) Samples.url = inr [] ∧
  load_file (Samples.lib_with None None (Some Samples.t_demo)) Samples.url
    = ([Excel; CsvUtf8; CsvLatin1], inr Samples.t_demo).
Proof.
  split; [reflexivity|].
  apply (load_file_order (Samples.lib_with None None (Some Samples.t_demo)) Samples.url []
           eq_refl); reflexivity.
Defined.

(* ------------------------------------------------------------------ *)
(** ** The scratch directory *)

Module StoreFacts.

Lemma cleanup_lookup (now : Z) (d : gmap string file) (m : string) (g : file) :
  cleanup_old_files now d !! m = Some g ↔
  d !! m = Some g ∧ (now - mtime g ≤ FILE_LIFETIME_SECONDS)%Z.
Proof.
  unfold cleanup_old_files. rewrite map_lookup_filter_Some. simpl.
  split; intros [H1 H2]; (split; [exact H1|lia]).
Qed.

Lemma save_temp_file_keeps (L : Lib) (data : Csv.bytes) (suffix : string) (w : world) (m : string) :
  is_Some (fs w !! m) → is_Some (fs (fst (save_temp_file L data suffix w)) !! m).
Proof.
  unfold save_temp_file. simpl. intros H.
  rewrite lookup_insert. case_decide; [done|exact H].
Qed.

Lemma process_keeps (L : Lib) (file_url : string) (w : world) (m : string) :
  is_Some (fs w !! m) → is_Some (fs (fst (process_site_diary L file_url w)) !! m).
Proof.
  intros H. unfold process_site_diary, mbind, mlift, mret.
  destruct (snd (load_file L file_url)) as [e|df]; [exact H|].
  unfold check_columns. destruct (Pipeline.missing_cols df); [|exact H].
  destruct (transform L df) as [e|[[c f] p]]; [exact H|].
  destruct (save_temp_file L (Csv.serialize c) "cleaned" w) as [w1 [e1|n1]] eqn:E1;
    [discriminate|].
  destruct (save_temp_file L (Csv.serialize f) "filtered" w1) as [w2 [e2|n2]] eqn:E2;
    [discriminate|].
  simpl. rewrite !lookup_insert. case_decide; [done|]. case_decide; [done|exact H].
Qed.

Lemma run_tool_keeps (L : Lib) (file_path : string) (w : world) (m : string) :
  is_Some (fs w !! m) → is_Some (fs (fst (run_tool L file_path w)) !! m).
Proof.
  intros H. unfold run_tool. pose proof (process_keeps L file_path w m H) as Hk.
  destruct (process_site_diary L file_path w) as [w' [e|r]]; exact Hk.
Qed.

End StoreFacts.

(** C6: every retrieval first sweeps all files older than the TTL of 600
    seconds and keeps the rest; processing requests never delete files, so
    files leave the directory only through this sweep.  For a name other
    than "." and "..", a retrieval at most 600 seconds after the file was
    written serves its stored bytes, and a retrieval of an older file or
    of a name that is not stored answers not-found.  The names "." and ".."
    pass the [os.path.exists] test as directories, and the request fails
    with a server error instead of answering not-found. *)
Theorem download_ttl (w : world) (name : string) :
  FILE_LIFETIME_SECONDS = 600%Z ∧
  (∀ m g, fs (fst (download_file name w)) !! m = Some g ↔
          fs w !! m = Some g ∧ (clock w - mtime g ≤ FILE_LIFETIME_SECONDS)%Z) ∧
  (∀ L p m, is_Some (fs w !! m) → is_Some (fs (fst (run_tool L p w)) !! m)) ∧
  (is_dir_entry name = false →
    (∀ f, fs w !! name = Some f → (clock w - mtime f ≤ FILE_LIFETIME_SECONDS)%Z →
       snd (download_file name w) = FileResponse (content f)) ∧
    (∀ f, fs w !! name = Some f → (clock w - mtime f > FILE_LIFETIME_SECONDS)%Z →
       snd (download_file name w) = FileNotFound ∧ fs (fst (download_file name w)) !! name = None) ∧
    (fs w !! name = None → snd (download_file name w) = FileNotFound)) ∧
  (is_dir_entry name = true →
    snd (download_file name w) =
      ServerError ("File at path " ++ TEMP_DIR ++ "/" ++ name ++ " is not a file.")).
Proof.
  split; [reflexivity|]. unfold download_file.
  split; [|split; [|split]].
  - intros m g. destruct (is_dir_entry name); [|destruct (cleanup_old_files (clock w) (fs w) !! name)];
      apply StoreFacts.cleanup_lookup.
  - intros L p m. apply StoreFacts.run_tool_keeps.
  - intros Hd. rewrite Hd. cbn [fst snd fs clock]. split; [|split].
    + intros f Hf Hage. by rewrite (proj2 (StoreFacts.cleanup_lookup _ _ name f) (conj Hf Hage)).
    + intros f Hf Hage.
      destruct (cleanup_old_files (clock w) (fs w) !! name) as [g|] eqn:E.
      * apply StoreFacts.cleanup_lookup in E as [Hg Hle]. rewrite Hf in Hg. injection Hg as <-. lia.
      * split; [done|]. exact E.
    + intros Hn. destruct (cleanup_old_files (clock w) (fs w) !! name) as [g|] eqn:E; [|done].
      apply StoreFacts.cleanup_lookup in E as [Hg _]. congruence.
  - intros Hd. by rewrite Hd.
Qed.

Lemma download_ttl_witness :
  fs Samples.w_store !! "a_cleaned.csv" = Some Samples.sample_file ∧
  (clock Samples.w_store - mtime Samples.sample_file ≤ FILE_LIFETIME_SECONDS)%Z ∧
  snd (download_file "a_cleaned.csv" Samples.w_store) = FileResponse [104%Z; 105%Z] ∧
  snd (download_file ".." Samples.w_store) =
    ServerError "File at path /tmp/diary_outputs/.. is not a file.".
Proof.
  split; [reflexivity|]. split; [unfold FILE_LIFETIME_SECONDS; simpl; lia|]. split.
  - apply (proj1 (proj1 (proj2 (proj2 (proj2 (download_ttl Samples.w_store "a_cleaned.csv"))))
             eq_refl) Samples.sample_file);
      [reflexivity|unfold FILE_LIFETIME_SECONDS; simpl; lia].
  - exact (proj2 (proj2 (proj2 (proj2 (download_ttl Samples.w_store ".."))))  eq_refl).
Defined.

(* ------------------------------------------------------------------ *)
(** ** Error paths of a request *)

Module ErrorFacts.

Lemma save_temp_file_ok (L : Lib) (data : Csv.bytes) (suffix : string) (w : world) :
  ∃ w' n, save_temp_file L data suffix w = (w', inr n).
Proof. unfold save_temp_file. eauto. Qed.

(** The merge of line 129 raises only when a column bears one of the
    names pandas reserves for it. *)
Lemma transform_error (L : Lib) (df : table) (e : exn) :
  transform L df = inl e →
  ∃ m, e = ValueError m ∧
    ∃ c, c ∈ ["_left_indicator"; "_right_indicator"; "_merge"] ∧ c ∈ columns (Pipeline.normalize df).
Proof.
  cbv beta zeta iota delta [transform Pipeline.dedup].
  destruct (Pipeline.merge_indicator_error _ _) as [m|] eqn:E; [|discriminate].
  intros H. injection H as <-. exists m. split; [done|].
  unfold Pipeline.merge_indicator_error in E. cbn [Pipeline.drop_duplicates columns] in E.
  repeat case_bool_decide; try discriminate;
    (eexists; split; [|match goal with H : _ ∈ (_ ++ _)%list |- _ => apply elem_of_app in H as [H|H]; exact H end]);
    set_solver.
Qed.

(** A request fails exactly on one of the four paths, and then the
    world is returned unchanged. *)
Lemma process_error_cases (L : Lib) (file_path : string) (w w' : world) (e : exn) :
  process_site_diary L file_path w = (w', inl e) →
  w' = w ∧
  ((∃ m, fetch L file_path = inl m ∧ e = RequestError m) ∨
   (∃ data, fetch L file_path = inr data ∧ read_excel L data = None ∧
      read_csv_utf8 L data = None ∧ read_csv_latin1 L data = None ∧
      e = ValueError (load_error_msg file_path)) ∨
   (∃ df, snd (load_file L file_path) = inr df ∧ Pipeline.missing_cols df ≠ [] ∧
      e = ValueError ("Missing required columns: " ++ Py.repr_str_list (Pipeline.missing_cols df))) ∨
   (∃ df, snd (load_file L file_path) = inr df ∧ Pipeline.missing_cols df = [] ∧
      transform L df = inl e)).
Proof.
  unfold process_site_diary, mbind, mlift.
  destruct (snd (load_file L file_path)) as [e0|df] eqn:Hl.
  - intros H. injection H as -> ->. split; [done|].
    unfold load_file in Hl. destruct (fetch L file_path) as [m|data] eqn:Hf.
    + left. exists m. simpl in Hl. injection Hl as <-. done.
    + right; left. exists data. unfold decode in Hl.
      destruct (read_excel L data) eqn:E1; [discriminate|].
      destruct (read_csv_utf8 L data) eqn:E2; [discriminate|].
      destruct (read_csv_latin1 L data) eqn:E3; [discriminate|].
      simpl in Hl. injection Hl as <-. done.
  - unfold check_columns. destruct (Pipeline.missing_cols df) as [|c cs] eqn:Hm.
    + destruct (transform L df) as [e1|[[cl fl] p]] eqn:Ht.
      { intros H. injection H as -> <-. split; [done|]. right; right; right. by exists df. }
      destruct (save_temp_file_ok L (Csv.serialize cl) "cleaned" w) as (w1 & n1 & E1).
      change (mret () w) with (w, @inr exn unit tt). cbv beta iota. rewrite E1.
      destruct (save_temp_file_ok L (Csv.serialize fl) "filtered" w1) as (w2 & n2 & E2).
      rewrite E2. discriminate.
    + unfold mraise. intros H. injection H as -> <-. split; [done|].
      right; right; left. exists df. split; [done|]. rewrite Hm. done.
Qed.

End ErrorFacts.

(** C7: when the loaded table lacks required columns, processing stops
    with a ValueError listing them before any row is touched (the result
    depends on the column names alone), nothing is written, and [/run]
    answers with an error payload that carries the input location and the
    message instead of a result. *)
Theorem missing_columns_abort (L : Lib) (file_path : string) (w : world) (df : table)
  (Hload : snd (load_file L file_path) = inr df)
  (Hmiss : Pipeline.missing_cols df ≠ []) :
  let msg := "Missing required columns: " ++ Py.repr_str_list (Pipeline.missing_cols df) in
  (∀ c, c ∈ Pipeline.missing_cols df ↔ c ∈ Pipeline.required_cols ∧ c ∉ columns df) ∧
  process_site_diary L file_path w = (w, inl (ValueError msg)) ∧
  run_tool L file_path w =
    (w, RunError "Failed to process file." file_path msg (format_exc L (ValueError msg))).
Proof.
  intros msg.
  assert (Hp : process_site_diary L file_path w = (w, inl (ValueError msg))).
  { unfold process_site_diary, mbind, mlift. rewrite Hload.
    unfold check_columns. destruct (Pipeline.missing_cols df) eqn:Hm; [done|]. reflexivity. }
  split; [|split; [exact Hp|]].
  - intros c. unfold Pipeline.missing_cols.
    rewrite PruneFacts.elem_of_List_filter, negb_true_iff, list_elem_of_In.
    split; intros [H1 H2]; split; try exact H1.
    + intros Hc. apply list_elem_of_In in Hc.
      assert (existsb (String.eqb c) (columns df) = true)
        by (apply existsb_exists; exists c; split; [done|apply String.eqb_refl]).
      congruence.
    + apply not_true_iff_false. intros Hc. apply existsb_exists in Hc as (x & Hx & Heq).
      apply String.eqb_eq in Heq as <-. apply H2, list_elem_of_In, Hx.
  - unfold run_tool. rewrite Hp. reflexivity.
Qed.

Lemma missing_columns_abort_witness :
  snd (load_file (Samples.lib_with (Some Samples.t_missing) None None) Samples.url)
    = inr Samples.t_missing ∧
  Pipeline.missing_cols Samples.t_missing = ["Shift"; "Duration"] ∧
  run_tool (Samples.lib_with (Some Samples.t_missing) None None) Samples.url Samples.w0 =
    (Samples.w0, RunError "Failed to process file." Samples.url
                   "Missing required columns: ['Shift', 'Duration']"
                   "Missing required columns: ['Shift', 'Duration']").
Proof.
  split; [reflexivity|]. split; [reflexivity|].
  apply (missing_columns_abort (Samples.lib_with (Some Samples.t_missing) None None)
           Samples.url Samples.w0 Samples.t_missing eq_refl); discriminate.
Defined.

(* ------------------------------------------------------------------ *)
(** ** The persisted artifacts *)

Module ArtifactFacts.

Lemma list_ascii_app (a b : string) :
  list_ascii_of_string (a ++ b) = (list_ascii_of_string a ++ list_ascii_of_string b)%list.
Proof. induction a as [|c a IH]; simpl; [done|]. by rewrite IH. Qed.

Lemma artifact_names_differ (a b : string) :
  b ++ "_" ++ "filtered" ++ ".csv" ≠ a ++ "_" ++ "cleaned" ++ ".csv".
Proof.
  intros H. cbn in H.
  apply (f_equal list_ascii_of_string) in H. rewrite !list_ascii_app in H.
  apply (f_equal (fun l => take 7 (reverse l))) in H.
  rewrite !reverse_app in H. rewrite !take_app_le in H by (vm_compute; lia).
  vm_compute in H. discriminate.
Qed.

Lemma missing_cols_nil (df : table) (c : string) :
  Pipeline.missing_cols df = [] → c ∈ Pipeline.required_cols → c ∈ columns df.
Proof.
  intros Hm Hc. destruct (decide (c ∈ columns df)) as [|Hn]; [done|].
  exfalso. assert (Hin : c ∈ Pipeline.missing_cols df).
  { unfold Pipeline.missing_cols. apply PruneFacts.elem_of_List_filter. split; [done|].
    apply negb_true_iff, not_true_iff_false. intros He.
    apply existsb_exists in He as (x & Hx & Heq). apply String.eqb_eq in Heq as <-.
    apply Hn, list_elem_of_In, Hx. }
  rewrite Hm in Hin. by apply elem_of_nil in Hin.
Qed.

Lemma set_cols_present (cols : list string) (n : string) : n ∈ cols → TableFacts.set_cols cols n = cols.
Proof.
  unfold TableFacts.set_cols. intros H.
  destruct (col_index cols n) eqn:E; [done|]. by apply TableFacts.col_index_None in E.
Qed.




Lemma normalize_columns_eq (df : table) :
  Pipeline.missing_cols df = [] → columns (Pipeline.normalize df) = columns df.
Proof.
  intros Hm. rewrite NormalizeFacts.normalize_columns. unfold Pipeline.convert_flags.
  rewrite !TableFacts.set_col_eq. simpl.
  rewrite (set_cols_present (columns df) "Ignore Entry"); [|apply missing_cols_nil; [done|set_solver]].
  apply set_cols_present, missing_cols_nil; [done|set_solver].
Qed.


End ArtifactFacts.

(** C10: a request that fails leaves the world, and with it the scratch
    directory, unchanged: both artifact writes come after every
    transformation.  The failures are a fetch error, every reader failing,
    missing required columns, and one more: the merge of line 129 raises a
    ValueError when the table holds a column named "_left_indicator",
    "_right_indicator" or "_merge". *)
Theorem error_paths_write_nothing (L : Lib) (file_path : string) (w w' : world) (e : exn)
  (Herr : process_site_diary L file_path w = (w', inl e)) :
  w' = w ∧
  fst (run_tool L file_path w) = w ∧
  ((∃ m, fetch L file_path = inl m ∧ e = RequestError m) ∨
   (∃ data, fetch L file_path = inr data ∧ read_excel L data = None ∧
      read_csv_utf8 L data = None ∧ read_csv_latin1 L data = None ∧
      e = ValueError (load_error_msg file_path)) ∨
   (∃ df, snd (load_file L file_path) = inr df ∧ Pipeline.missing_cols df ≠ [] ∧
      e = ValueError ("Missing required columns: " ++ Py.repr_str_list (Pipeline.missing_cols df))) ∨
   (∃ df c m, snd (load_file L file_path) = inr df ∧ Pipeline.missing_cols df = [] ∧
      c ∈ ["_left_indicator"; "_right_indicator"; "_merge"] ∧ c ∈ columns df ∧
      e = ValueError m)).
Proof.
  destruct (ErrorFacts.process_error_cases L file_path w w' e Herr) as [-> Hc].
  split; [done|]. split; [unfold run_tool; by rewrite Herr|].
  destruct Hc as [H|[H|[H|(df & Hl & Hm & Ht)]]]; [by left|by right; left|by right; right; left|].
  right; right; right.
  destruct (ErrorFacts.transform_error L df e Ht) as (m & -> & c & Hc & Hcol).
  rewrite ArtifactFacts.normalize_columns_eq in Hcol by exact Hm.
  by exists df, c, m.
Qed.

Lemma error_paths_write_nothing_witness :
  process_site_diary (Samples.lib_with None None None) Samples.url Samples.w0
    = (Samples.w0, inl (ValueError (load_error_msg Samples.url))) ∧
  fst (run_tool (Samples.lib_with None None None) Samples.url Samples.w0) = Samples.w0 ∧
  process_site_diary (Samples.lib_with (Some Samples.t_merge) None None) Samples.url Samples.w0
    = (Samples.w0, inl (ValueError "Cannot use name of an existing column for indicator column")) ∧
  fst (run_tool (Samples.lib_with (Some Samples.t_merge) None None) Samples.url Samples.w0) = Samples.w0.
Proof.
  split; [reflexivity|]. split.
  - apply (error_paths_write_nothing (Samples.lib_with None None None) Samples.url
             Samples.w0 Samples.w0 (ValueError (load_error_msg Samples.url))).
    reflexivity.
  - split; [vm_compute; reflexivity|].
    apply (error_paths_write_nothing (Samples.lib_with (Some Samples.t_merge) None None) Samples.url
             Samples.w0 Samples.w0
             (ValueError "Cannot use name of an existing column for indicator column")).
    vm_compute. reflexivity.
Defined.

(** C9: refuted.  [to_csv] is passed [encoding="utf-8-sig"], the codec
    that writes a UTF-8 byte-order mark (EF BB BF), but with no target
    path [to_csv] returns a [str] and the encoding is not applied; the
    [.encode()] that follows produces plain UTF-8.  On the sample request
    the two stored artifacts both start with the bytes of "Ign" (the first
    header field, "Ignore Entry"), not with the mark.  The header of the
    rejected artifact, captured before the Field Deriver runs, moreover
    holds the nine loaded columns only, without "Shift_Type" and
    "Duration_min". *)
Theorem artifacts_without_bom :
  let L := Samples.lib_with (Some Samples.t_demo) None None in
  let w := fst (process_site_diary L Samples.url Samples.w0) in
  ∃ r, snd (process_site_diary L Samples.url Samples.w0) = inr r ∧
    cleaned_download_url r = (DOWNLOAD_BASE ++ "0_cleaned.csv") ∧
    filtered_download_url r = (DOWNLOAD_BASE ++ "1_filtered.csv") ∧
    option_map (fun f => take 3 (content f)) (fs w !! "0_cleaned.csv") = Some [73; 103; 110]%Z ∧
    option_map (fun f => take 3 (content f)) (fs w !! "1_filtered.csv") = Some [73; 103; 110]%Z ∧
    columns (filtered_out_df_dict r) = Pipeline.required_cols ∧
    ("Shift_Type" ∉ columns (filtered_out_df_dict r)) ∧
    ("Duration_min" ∉ columns (filtered_out_df_dict r)).
Proof.
  intros L w. eexists. split; [vm_compute; reflexivity|].
  do 5 (split; [vm_compute; reflexivity|]).
  split; vm_compute; intros H; repeat (apply elem_of_cons in H as [H|H]; [discriminate|]);
    by apply elem_of_nil in H.
Qed.



(* ================================================================== *)
(** * Further properties of main.py *)

(* ------------------------------------------------------------------ *)
(** ** [clean_json] *)

Module JsonFacts.
Import Json.

Lemma clean_json_all_finite (v : value) : all_finite (clean_json v) = true.
Proof.
  revert v. fix IH 1. intros v. destruct v as [|b|z|f|s|l|kvs]; cbn; try reflexivity.
  - by destruct f.
  - induction l as [|x l IHl]; cbn; [reflexivity|]. by rewrite IH, IHl.
  - induction kvs as [|[k x] kvs IHk]; cbn; [reflexivity|]. by rewrite IH, IHk.
Qed.

Lemma clean_json_id (v : value) : all_finite v = true → clean_json v = v.
Proof.
  revert v. fix IH 1. intros v H. destruct v as [|b|z|f|s|l|kvs]; cbn in *; try reflexivity.
  - by destruct f.
  - f_equal. induction l as [|x l IHl]; cbn in *; [reflexivity|].
    apply andb_true_iff in H as [H1 H2]. by rewrite (IH x H1), (IHl H2).
  - f_equal. induction kvs as [|[k x] kvs IHk]; cbn in *; [reflexivity|].
    apply andb_true_iff in H as [H1 H2]. by rewrite (IH x H1), (IHk H2).
Qed.

End JsonFacts.

(** X1. Extra (run_tool, clean_json): after cleaning, no NaN or infinity is
    left anywhere in the response, however deeply nested; cleaning twice
    gives the same value as cleaning once. *)
Theorem clean_json_no_nonfinite (v : Json.value) :
  Json.all_finite (Json.clean_json v) = true ∧
  Json.clean_json (Json.clean_json v) = Json.clean_json v.
Proof.
  split; [apply JsonFacts.clean_json_all_finite|].
  apply JsonFacts.clean_json_id, JsonFacts.clean_json_all_finite.
Qed.

(** X2. Extra (run_tool, clean_json): a value holding no NaN or infinity is
    returned unchanged (finite floats, integers, strings, lists and
    dictionaries pass through as they are). *)
Theorem clean_json_keeps_finite (v : Json.value) (Hfin : Json.all_finite v = true) :
  Json.clean_json v = v.
Proof. by apply JsonFacts.clean_json_id. Qed.

Lemma clean_json_keeps_finite_witness :
  Json.all_finite Samples.payload = true ∧ Json.clean_json Samples.payload = Samples.payload.
Proof.
  split; [reflexivity|]. apply clean_json_keeps_finite. reflexivity.
Defined.

(* ------------------------------------------------------------------ *)
(** ** Integer cells read as text: [str(int)] *)

Module DigitFacts.

Lemma string_app_assoc (a b c : string) : (a ++ b) ++ c = a ++ (b ++ c).
Proof. induction a as [|x a IH]; [reflexivity|exact (f_equal (String x) IH)]. Qed.

Lemma string_app_nil_r (a : string) : a ++ "" = a.
Proof. induction a as [|x a IH]; [reflexivity|exact (f_equal (String x) IH)]. Qed.

Lemma all_digits_app (a b : string) :
  SpecSide.all_digits (a ++ b) = SpecSide.all_digits a && SpecSide.all_digits b.
Proof. induction a as [|x a IH]; simpl; [done|]. by rewrite IH, andb_assoc. Qed.

Lemma digits_value_aux_app (acc : Z) (a b : string) :
  Pipeline.digits_value_aux acc (a ++ b) =
  Pipeline.digits_value_aux (Pipeline.digits_value_aux acc a) b.
Proof. revert acc. induction a as [|x a IH]; intros acc; simpl; [done|]. apply IH. Qed.

Lemma digit_char (k : nat) :
  k < 10 →
  Py.is_digit (ascii_of_nat (48 + k)) = true ∧ Py.digit_value (ascii_of_nat (48 + k)) = Z.of_nat k.
Proof.
  intros Hk. unfold Py.is_digit, Py.digit_value.
  rewrite nat_ascii_embedding by lia. split.
  - apply andb_true_iff. split; apply Nat.leb_le; lia.
  - f_equal. lia.
Qed.

Lemma digits_of_pos_aux_S (fuel : nat) (n : Z) (acc : string) :
  Py.digits_of_pos_aux (S fuel) n acc =
  if Z.ltb n 10 then String (ascii_of_nat (48 + Z.to_nat (n mod 10))) acc
  else Py.digits_of_pos_aux fuel (n / 10) (String (ascii_of_nat (48 + Z.to_nat (n mod 10))) acc).
Proof. reflexivity. Qed.

Lemma digits_of_pos_aux_spec (fuel : nat) (n : Z) (acc : string) :
  (0 ≤ n)%Z → (n < 10 ^ Z.of_nat (S fuel))%Z →
  ∃ ds, Py.digits_of_pos_aux (S fuel) n acc = ds ++ acc ∧ ds ≠ "" ∧
    SpecSide.all_digits ds = true ∧
    ∃ p, ∀ a, Pipeline.digits_value_aux a ds = (a * p + n)%Z.
Proof.
  revert n acc. induction fuel as [|fuel IH]; intros n acc H0 Hlt;
    (assert (Hm : (0 ≤ n mod 10 < 10)%Z) by (apply Z.mod_pos_bound; lia));
    (destruct (digit_char (Z.to_nat (n mod 10))) as [Hd Hv]; [lia|]);
    remember (ascii_of_nat (48 + Z.to_nat (n mod 10))) as d eqn:Ed;
    rewrite digits_of_pos_aux_S; rewrite <- Ed.
  - assert (Hn : (n < 10)%Z) by (simpl in Hlt; lia).
    rewrite (proj2 (Z.ltb_lt n 10) Hn).
    exists (String d ""). split; [reflexivity|]. split; [discriminate|].
    cbn [SpecSide.all_digits]. rewrite Hd. split; [reflexivity|].
    exists 10%Z. intros a. cbn [Pipeline.digits_value_aux]. rewrite Hv, Z2Nat.id by lia.
    rewrite Z.mod_small by lia. lia.
  - destruct (Z.ltb_spec n 10) as [Hn|Hn].
    + exists (String d ""). split; [reflexivity|]. split; [discriminate|].
      cbn [SpecSide.all_digits]. rewrite Hd. split; [reflexivity|].
      exists 10%Z. intros a. cbn [Pipeline.digits_value_aux]. rewrite Hv, Z2Nat.id by lia.
      rewrite Z.mod_small by lia. lia.
    + destruct (IH (n / 10)%Z (String d acc)) as (ds & E & Hne & Hall & p & Hp).
      * apply Z.div_pos; lia.
      * apply Z.div_lt_upper_bound; [lia|].
        replace (Z.of_nat (S (S fuel))) with (Z.of_nat (S fuel) + 1)%Z in Hlt by lia.
        rewrite Z.pow_add_r in Hlt by lia. lia.
      * exists (ds ++ String d ""). rewrite E, string_app_assoc. split; [reflexivity|].
        split; [by destruct ds|].
        rewrite all_digits_app, Hall. cbn [SpecSide.all_digits]. rewrite Hd. split; [reflexivity|].
        exists (p * 10)%Z. intros a. rewrite digits_value_aux_app, Hp.
        cbn [Pipeline.digits_value_aux]. rewrite Hv, Z2Nat.id by lia.
        pose proof (Z.div_mod n 10). lia.
Qed.

Lemma log2_up_bound (z : Z) : (0 ≤ z)%Z → (z < 10 ^ Z.of_nat (S (Z.to_nat (Z.log2_up z))))%Z.
Proof.
  intros Hz. pose proof (Z.log2_up_nonneg z) as Hk.
  replace (Z.of_nat (S (Z.to_nat (Z.log2_up z)))) with (Z.log2_up z + 1)%Z by lia.
  rewrite Z.pow_add_r by lia.
  assert (H1 : (z ≤ 2 ^ Z.log2_up z)%Z).
  { destruct (Z.le_gt_cases z 1) as [Hle|Hgt].
    - pose proof (Z.pow_pos_nonneg 2 (Z.log2_up z)). lia.
    - apply Z.log2_up_spec. lia. }
  assert (H2 : (2 ^ Z.log2_up z ≤ 10 ^ Z.log2_up z)%Z) by (apply Z.pow_le_mono_l; lia).
  pose proof (Z.pow_pos_nonneg 10 (Z.log2_up z)). lia.
Qed.

(** [str(z)] for [z ≥ 0] is a non-empty run of digits with value [z]. *)
Lemma str_of_Z_nonneg (z : Z) :
  (0 ≤ z)%Z →
  Py.str_of_Z z ≠ "" ∧ SpecSide.all_digits (Py.str_of_Z z) = true ∧
  Pipeline.digits_value (Py.str_of_Z z) = z.
Proof.
  intros Hz. unfold Py.str_of_Z. rewrite (proj2 (Z.ltb_ge z 0) Hz).
  destruct (digits_of_pos_aux_spec (Z.to_nat (Z.log2_up z)) z "" Hz (log2_up_bound z Hz))
    as (ds & E & Hne & Hall & p & Hp).
  rewrite E, string_app_nil_r. split; [done|]. split; [done|].
  unfold Pipeline.digits_value. rewrite Hp. lia.
Qed.

Lemma str_of_Z_neg (z : Z) :
  (z < 0)%Z → ∃ ds, Py.str_of_Z z = String "-" ds ∧ ds ≠ "" ∧
    SpecSide.all_digits ds = true ∧ Pipeline.digits_value ds = (- z)%Z.
Proof.
  intros Hz. unfold Py.str_of_Z. rewrite (proj2 (Z.ltb_lt z 0) Hz).
  assert (Hp : (0 ≤ - z)%Z) by lia.
  destruct (digits_of_pos_aux_spec (Z.to_nat (Z.log2_up (- z))) (- z) "" Hp (log2_up_bound _ Hp))
    as (ds & E & Hne & Hall & p & Hv).
  exists ds. rewrite E, string_app_nil_r. split; [done|]. split; [done|]. split; [done|].
  unfold Pipeline.digits_value. rewrite Hv. lia.
Qed.

Lemma take_digits_all (ds : string) : SpecSide.all_digits ds = true → Pipeline.take_digits ds = ds.
Proof.
  induction ds as [|c ds IH]; simpl; [done|]. intros H. apply andb_true_iff in H as [H1 H2].
  rewrite H1. by rewrite IH.
Qed.






Lemma lower_digits (ds : string) : SpecSide.all_digits ds = true → Py.lower ds = ds.
Proof.
  induction ds as [|c ds IH]; simpl; [done|]. intros H. apply andb_true_iff in H as [H1 H2].
  rewrite IH by done. f_equal. unfold Py.is_digit in H1. apply andb_true_iff in H1 as [Ha Hb].
  apply Nat.leb_le in Ha, Hb. unfold Py.lower_char.
  replace (Nat.leb 65 (nat_of_ascii c)) with false by (symmetry; apply Nat.leb_gt; lia).
  replace (Nat.leb 192 (nat_of_ascii c)) with false by (symmetry; apply Nat.leb_gt; lia).
  reflexivity.
Qed.

Lemma shift_type_digits (ds : string) :
  SpecSide.all_digits ds = true → Pipeline.shift_type ds = Null.
Proof.
  intros H. unfold Pipeline.shift_type.
  destruct ds as [|c ds]; [reflexivity|]. simpl in H. apply andb_true_iff in H as [H _].
  destruct (String.prefix "Day" (String c ds)) eqn:E1.
  { apply DeriveFacts.prefix_iff in E1 as [rest E1]. injection E1 as -> _. discriminate. }
  destruct (String.prefix "Night" (String c ds)) eqn:E2; [|done].
  apply DeriveFacts.prefix_iff in E2 as [rest E2]. injection E2 as -> _. discriminate.
Qed.

End DigitFacts.



(** X4. Extra (process_site_diary, lines 118-119): flag cells that are not
    text are parsed through their [str()] form: a missing value is false,
    a boolean keeps its value ("True" lowers to "true"), and an integer is
    true exactly when it is 1. *)
Theorem parse_flag_non_text (z : Z) (b : bool) :
  Pipeline.parse_flag Null = false ∧
  Pipeline.parse_flag (Bool b) = b ∧
  Pipeline.parse_flag (Int z) = Z.eqb z 1.
Proof.
  split; [reflexivity|]. split; [by destruct b|].
  destruct (Z.eqb_spec z 1) as [->|Hne]; [reflexivity|].
  unfold Pipeline.parse_flag, Pipeline.truthy. change (py_str (Int z)) with (Py.str_of_Z z).
  destruct (Z.le_gt_cases 0 z) as [Hz|Hz].
  - destruct (DigitFacts.str_of_Z_nonneg z Hz) as (_ & Hall & Hv).
    rewrite DigitFacts.lower_digits by done.
    cbn [existsb]. rewrite orb_false_r.
    destruct (String.eqb_spec (Py.str_of_Z z) "true") as [E|_]; [by rewrite E in Hall|].
    destruct (String.eqb_spec (Py.str_of_Z z) "1") as [E|_]; [by rewrite E in Hv|].
    destruct (String.eqb_spec (Py.str_of_Z z) "yes") as [E|_]; [by rewrite E in Hall|].
    reflexivity.
  - destruct (DigitFacts.str_of_Z_neg z Hz) as (ds & E & _). rewrite E. reflexivity.
Qed.

(* ------------------------------------------------------------------ *)
(** ** The Deduplicator *)

Module DedupMore.

Lemma drop_dup_go_first (cols : list string) (seen : list (list cell)) (L : list row) (r : row) :
  In r (Pipeline.drop_dup_go cols seen L) →
  (Pipeline.key cols r ∉ seen) ∧
  ∃ pre post, L = (pre ++ r :: post)%list ∧
    ∀ x, In x pre → Pipeline.key cols x ≠ Pipeline.key cols r.
Proof.
  revert seen. induction L as [|x L IH]; intros seen; simpl; [done|].
  case_bool_decide as Hx.
  - intros Hin. destruct (IH seen Hin) as (Hn & pre & post & -> & Hpre).
    split; [done|]. exists (x :: pre), post. split; [done|].
    intros y [<-|Hy]; [|by apply Hpre]. intros E. rewrite E in Hx. done.
  - intros [<-|Hin].
    + split; [done|]. exists [], L. split; [done|]. done.
    + destruct (IH _ Hin) as (Hn & pre & post & -> & Hpre).
      apply not_elem_of_cons in Hn as [Hne Hn]. split; [done|].
      exists (x :: pre), post. split; [done|].
      intros y [<-|Hy]; [congruence|by apply Hpre].
Qed.

Lemma drop_dup_go_nodup (cols : list string) (seen : list (list cell)) (L : list row) :
  NoDup (map (Pipeline.key cols) (Pipeline.drop_dup_go cols seen L)).
Proof.
  revert seen. induction L as [|x L IH]; intros seen; simpl; [constructor|].
  case_bool_decide as Hx; [apply IH|]. simpl. constructor; [|apply IH].
  rewrite list_elem_of_In, in_map_iff. intros (r & E & Hr).
  apply drop_dup_go_first in Hr as [Hr _]. apply Hr. rewrite E. left.
Qed.

Lemma drop_dup_go_sublist (cols : list string) (seen : list (list cell)) (L : list row) :
  sublist (Pipeline.drop_dup_go cols seen L) L.
Proof.
  revert seen. induction L as [|x L IH]; intros seen; simpl; [constructor|].
  case_bool_decide; [apply sublist_cons, IH|apply sublist_skip, IH].
Qed.

Lemma filter_perm {A} (f : A → bool) (l : list A) :
  Permutation (List.filter f l ++ List.filter (fun x => negb (f x)) l)%list l.
Proof.
  induction l as [|x l IH]; simpl; [done|].
  destruct (f x); simpl; [by rewrite IH|].
  rewrite <- Permutation_middle. by rewrite IH.
Qed.

Lemma filter_sublist {A} (f : A → bool) (l : list A) : sublist (List.filter f l) l.
Proof.
  induction l as [|x l IH]; simpl; [constructor|].
  destruct (f x); [apply sublist_skip, IH|apply sublist_cons, IH].
Qed.

Lemma sublist_filter_all {A} (f : A → bool) (l1 l2 : list A) :
  sublist l1 l2 → (∀ x, In x l1 → f x = true) → sublist l1 (List.filter f l2).
Proof.
  induction 1 as [|x l1 l2 H IH|x l1 l2 H IH]; intros Hf; simpl; [constructor| |].
  - rewrite (Hf x (or_introl eq_refl)). apply sublist_skip, IH. intros y Hy. apply Hf. by right.
  - destruct (f x); [apply sublist_cons|]; by apply IH.
Qed.

(** Accepted and rejected together never hold more rows than the input. *)
Lemma dedup_length (t : table) :
  (length (rows (fst (Pipeline.dedup t))) + length (rows (snd (Pipeline.dedup t))) ≤ length (rows t))%nat.
Proof.
  simpl. unfold Pipeline.merge_left_only. simpl.
  set (A := Pipeline.drop_dup_go (columns t) [] (rows t)).
  set (f := fun r => bool_decide (r ∈ A)).
  assert (Hs : sublist A (List.filter f (rows t))).
  { apply sublist_filter_all; [apply drop_dup_go_sublist|].
    intros x Hx. unfold f. apply bool_decide_eq_true. by apply list_elem_of_In. }
  apply sublist_length in Hs.
  pose proof (Permutation_length (filter_perm f (rows t))) as Hp. rewrite length_app in Hp.
  unfold f in *. lia.
Qed.

End DedupMore.

(** X5. Extra (process_site_diary, line 127): [drop_duplicates] keeps, for
    each key (From, Until, Ring, Category, Description), exactly the first
    row carrying it: the kept rows appear in input order, no two share a
    key, each one is preceded in the input by no row with its key, and
    every input row's key is carried by a kept row. *)
Theorem drop_duplicates_keeps_first (t : table) :
  let D := Pipeline.drop_duplicates t in
  sublist (rows D) (rows t) ∧
  NoDup (map (Pipeline.key (columns t)) (rows D)) ∧
  (∀ r, In r (rows D) → ∃ pre post, rows t = (pre ++ r :: post)%list ∧
     ∀ x, In x pre → Pipeline.key (columns t) x ≠ Pipeline.key (columns t) r) ∧
  (∀ r, In r (rows t) → ∃ r', In r' (rows D) ∧ Pipeline.key (columns t) r' = Pipeline.key (columns t) r).
Proof.
  intros D. unfold D, Pipeline.drop_duplicates. simpl.
  split; [apply DedupMore.drop_dup_go_sublist|].
  split; [apply DedupMore.drop_dup_go_nodup|].
  split.
  - intros r Hr. by apply DedupMore.drop_dup_go_first in Hr as [_ H].
  - intros r Hr. destruct (DedupCategories.drop_dup_go_cover (columns t) [] (rows t) r Hr)
      as [H|H]; [by apply elem_of_nil in H|exact H].
Qed.

(** X6. Extra (process_site_diary, lines 126-132): every rejected row is a
    key duplicate of a different, accepted row; and when the input holds
    no two rows equal in every column, accepted and rejected rows together
    are exactly the input rows (as a multiset). *)
Theorem dedup_partition_without_full_duplicates (t : table) (Hnd : NoDup (rows t)) :
  (∀ r, In r (rows (snd (Pipeline.dedup t))) →
     ∃ r', In r' (rows (fst (Pipeline.dedup t))) ∧ r' ≠ r ∧
       Pipeline.key (columns t) r' = Pipeline.key (columns t) r) ∧
  Permutation (rows (fst (Pipeline.dedup t)) ++ rows (snd (Pipeline.dedup t)))%list (rows t).
Proof.
  simpl. unfold Pipeline.merge_left_only, Pipeline.drop_duplicates. simpl.
  set (A := Pipeline.drop_dup_go (columns t) [] (rows t)).
  split.
  - intros r Hr. apply filter_In in Hr as [Hr Hn].
    apply negb_true_iff, bool_decide_eq_false in Hn.
    destruct (DedupCategories.drop_dup_go_cover (columns t) [] (rows t) r Hr)
      as [H|(r' & Hr' & Hk)]; [by apply elem_of_nil in H|].
    exists r'. split; [exact Hr'|]. split; [|exact Hk].
    intros ->. apply Hn. by apply list_elem_of_In.
  - set (f := fun r => bool_decide (r ∈ A)).
    transitivity (List.filter f (rows t) ++ List.filter (fun x => negb (f x)) (rows t))%list;
      [|apply DedupMore.filter_perm].
    apply Permutation_app_tail.
    apply NoDup_Permutation.
    + eapply sublist_NoDup; [exact Hnd|apply DedupMore.drop_dup_go_sublist].
    + eapply sublist_NoDup; [exact Hnd|apply DedupMore.filter_sublist].
    + intros x. rewrite !list_elem_of_In, filter_In. unfold f.
      rewrite bool_decide_eq_true, list_elem_of_In. split; [|tauto].
      intros Hx. split; [|done]. by eapply DedupCategories.drop_dup_go_incl.
Qed.

Lemma dedup_partition_without_full_duplicates_witness :
  NoDup (rows (Pipeline.normalize Samples.t_demo)) ∧
  Permutation (rows (fst (Pipeline.dedup (Pipeline.normalize Samples.t_demo))) ++
               rows (snd (Pipeline.dedup (Pipeline.normalize Samples.t_demo))))%list
              (rows (Pipeline.normalize Samples.t_demo)).
Proof.
  assert (H : NoDup (rows (Pipeline.normalize Samples.t_demo))).
  { apply (bool_decide_unpack _). vm_compute. reflexivity. }
  split; [exact H|]. apply (dedup_partition_without_full_duplicates _ H).
Defined.

(* ------------------------------------------------------------------ *)
(** ** The order of [value_counts] *)

Module CountOrder.

Definition by_count (p q : cell * nat) : Prop := (snd q ≤ snd p)%nat.

Lemma insert_desc_hd (a x : cell * nat) (l : list (cell * nat)) :
  HdRel by_count a l → by_count a x → HdRel by_count a (Pipeline.insert_desc x l).
Proof.
  intros Hh Hx. destruct l as [|y l]; simpl; [by constructor|].
  destruct (Nat.leb (snd y) (snd x)); constructor; [done|]. by inversion Hh.
Qed.

Lemma insert_desc_sorted (x : cell * nat) (l : list (cell * nat)) :
  Sorted by_count l → Sorted by_count (Pipeline.insert_desc x l).
Proof.
  induction l as [|y l IH]; intros Hs; simpl; [by repeat constructor|].
  destruct (Nat.leb (snd y) (snd x)) eqn:E.
  - constructor; [done|]. constructor. unfold by_count. by apply Nat.leb_le.
  - apply Sorted_inv in Hs as [Hs Hh]. constructor; [by apply IH|].
    apply insert_desc_hd; [done|]. unfold by_count. apply Nat.leb_gt in E. lia.
Qed.

Lemma sort_desc_sorted (l : list (cell * nat)) : StronglySorted by_count (Pipeline.sort_desc l).
Proof.
  apply Sorted_StronglySorted; [intros a b c; unfold by_count; lia|].
  induction l as [|x l IH]; simpl; [constructor|]. by apply insert_desc_sorted.
Qed.

Lemma filter_sorted {A} (R : A → A → Prop) (f : A → bool) (l : list A) :
  StronglySorted R l → StronglySorted R (List.filter f l).
Proof.
  induction l as [|x l IH]; intros Hs; simpl; [constructor|].
  apply StronglySorted_inv in Hs as [Hs Hf]. destruct (f x); [|by apply IH].
  constructor; [by apply IH|]. apply List.Forall_forall. intros y Hy.
  apply filter_In in Hy as [Hy _]. by eapply List.Forall_forall in Hf.
Qed.

Lemma sorted_keys (cnt : cell → nat) (l : list (cell * nat)) :
  StronglySorted by_count l → (∀ p, In p l → snd p = cnt (fst p)) →
  StronglySorted (fun a b => (cnt b ≤ cnt a)%nat) (map fst l).
Proof.
  induction l as [|x l IH]; intros Hs Hc; simpl; [constructor|].
  apply StronglySorted_inv in Hs as [Hs Hf]. constructor.
  - apply IH; [done|]. intros p Hp. apply Hc. by right.
  - apply List.Forall_forall. intros b Hb. apply in_map_iff in Hb as (q & <- & Hq).
    eapply List.Forall_forall in Hf; [|exact Hq]. unfold by_count in Hf.
    rewrite <- (Hc x (or_introl eq_refl)), <- (Hc q (or_intror Hq)). exact Hf.
Qed.

Lemma prune_sorted (t : table) (f : nat → bool) :
  StronglySorted
    (fun a b => (Pipeline.count_eq b (Pipeline.categories t) ≤ Pipeline.count_eq a (Pipeline.categories t))%nat)
    (map fst (List.filter (fun p => f (snd p)) (Pipeline.value_counts (Pipeline.categories t)))).
Proof.
  apply sorted_keys.
  - apply filter_sorted. unfold Pipeline.value_counts. apply sort_desc_sorted.
  - intros [c n] Hp. apply filter_In in Hp as [Hp _]. apply list_elem_of_In in Hp.
    apply PruneFacts.value_counts_elem in Hp as (_ & _ & ->). reflexivity.
Qed.

End CountOrder.

(** X7. Extra (process_site_diary, lines 135-138): [categories_retained] and
    [categories_removed] list categories from the most frequent to the
    least frequent ([value_counts] sorts by count and the threshold masks
    keep that order): each category is counted at least as often as every
    category after it. *)
Theorem prune_classes_by_count (t : table) :
  let cats := Pipeline.categories t in
  StronglySorted (fun a b => (Pipeline.count_eq b cats ≤ Pipeline.count_eq a cats)%nat)
    (Pipeline.valid_classes (Pipeline.prune t)) ∧
  StronglySorted (fun a b => (Pipeline.count_eq b cats ≤ Pipeline.count_eq a cats)%nat)
    (Pipeline.filtered_out_classes (Pipeline.prune t)).
Proof.
  split; [exact (CountOrder.prune_sorted t (Nat.leb 2))|].
  exact (CountOrder.prune_sorted t (fun n => Nat.ltb n 2)).
Qed.

(* ------------------------------------------------------------------ *)
(** ** Row counts, cell preservation *)

Module RowFacts.

Lemma list_lookup_map {A B} (f : A → B) (l : list A) (i : nat) :
  map f l !! i = option_map f (l !! i).
Proof. revert i. induction l as [|x l IH]; intros [|i]; simpl; auto. Qed.

Lemma set_col_length (n : string) (f : list string → row → cell) (t : table) :
  length (rows (set_col n f t)) = length (rows t).
Proof. rewrite TableFacts.set_col_eq. simpl. apply length_map. Qed.

Lemma filter_rows_length (p : list string → row → bool) (t : table) :
  (length (rows (filter_rows p t)) ≤ length (rows t))%nat.
Proof. apply sublist_length, DedupMore.filter_sublist. Qed.

Lemma kept_length (t : table) :
  (length (rows (Pipeline.kept (Pipeline.prune t))) ≤ length (rows t))%nat.
Proof. unfold Pipeline.prune. apply filter_rows_length. Qed.

Lemma normalize_length (t : table) : (length (rows (Pipeline.normalize t)) ≤ length (rows t))%nat.
Proof.
  unfold Pipeline.normalize, Pipeline.dropna_desc_cat, Pipeline.drop_flagged, Pipeline.convert_flags.
  etransitivity; [apply filter_rows_length|]. etransitivity; [apply filter_rows_length|].
  by rewrite !set_col_length.
Qed.

(** The shape of a successful request. *)
Lemma process_ok_eq (L : Lib) (file_path : string) (w w' : world) (r : result) :
  process_site_diary L file_path w = (w', inr r) →
  ∃ df cl fl p,
    snd (load_file L file_path) = inr df ∧ Pipeline.missing_cols df = [] ∧
    transform L df = inr (cl, fl, p) ∧
    w' = mk_world
           (<[uuid4_hex L (S (uuid_ctr w)) ++ "_" ++ "filtered" ++ ".csv" := mk_file (clock w) (Csv.serialize fl)]>
             (<[uuid4_hex L (uuid_ctr w) ++ "_" ++ "cleaned" ++ ".csv" := mk_file (clock w) (Csv.serialize cl)]>
               (fs w)))
           (clock w) (S (S (uuid_ctr w))) ∧
    r = mk_result (DOWNLOAD_BASE ++ (uuid4_hex L (uuid_ctr w) ++ "_" ++ "cleaned" ++ ".csv"))
          (DOWNLOAD_BASE ++ (uuid4_hex L (S (uuid_ctr w)) ++ "_" ++ "filtered" ++ ".csv"))
          (length (rows cl)) (length (rows fl))
          (Pipeline.valid_classes p) (Pipeline.filtered_out_classes p) cl fl.
Proof.
  intros Hok. unfold process_site_diary, mbind, mlift in Hok.
  destruct (snd (load_file L file_path)) as [e|df] eqn:Hl; [discriminate|].
  unfold check_columns in Hok. destruct (Pipeline.missing_cols df) eqn:Hm; [|discriminate].
  unfold mret in Hok. destruct (transform L df) as [e|[[cl fl] p]] eqn:Ht; [discriminate|].
  unfold save_temp_file in Hok. simpl in Hok. injection Hok as <- <-.
  exists df, cl, fl, p. done.
Qed.

Lemma transform_ok (L : Lib) (df cl fl : table) (p : Pipeline.pruned) :
  transform L df = inr (cl, fl, p) →
  cl = Pipeline.derive (to_numeric_wide L)
         (Pipeline.kept (Pipeline.prune (Pipeline.drop_duplicates (Pipeline.normalize df)))) ∧
  fl = Pipeline.merge_left_only (Pipeline.normalize df) (Pipeline.drop_duplicates (Pipeline.normalize df)) ∧
  p = Pipeline.prune (Pipeline.drop_duplicates (Pipeline.normalize df)).
Proof.
  cbv beta zeta iota delta [transform Pipeline.dedup].
  destruct (Pipeline.merge_indicator_error _ _); [discriminate|].
  intros H. by injection H as <- <- <-.
Qed.

End RowFacts.

(** X8. Extra (process_site_diary, lines 161-171): the row counts reported by
    a successful request are the lengths of the two returned record sets,
    and together they never exceed the number of rows loaded (rows dropped
    by the flag, missing-value or category filters are in neither set). *)
Theorem process_row_counts (L : Lib) (file_path : string) (w w' : world) (r : result)
  (Hok : process_site_diary L file_path w = (w', inr r)) :
  ∃ df, snd (load_file L file_path) = inr df ∧
    num_cleaned_rows r = length (rows (cleaned_df_dict r)) ∧
    num_filtered_rows r = length (rows (filtered_out_df_dict r)) ∧
    (num_cleaned_rows r + num_filtered_rows r ≤ length (rows df))%nat.
Proof.
  destruct (RowFacts.process_ok_eq L file_path w w' r Hok) as (df & cl & fl & p & Hl & Hm & Ht & _ & ->).
  exists df. cbn [num_cleaned_rows num_filtered_rows cleaned_df_dict filtered_out_df_dict].
  split; [done|]. split; [done|]. split; [done|].
  destruct (RowFacts.transform_ok L df cl fl p Ht) as (-> & -> & _).
  rewrite DeriveFacts.derive_length.
  set (N := Pipeline.normalize df).
  pose proof (DedupMore.dedup_length N) as Hd.
  change (length (rows (Pipeline.drop_duplicates N)) +
          length (rows (Pipeline.merge_left_only N (Pipeline.drop_duplicates N))) ≤ length (rows N))%nat
    in Hd.
  pose proof (RowFacts.kept_length (Pipeline.drop_duplicates N)) as Hk.
  pose proof (RowFacts.normalize_length df) as Hn. fold N in Hn. lia.
Qed.

Lemma process_row_counts_witness :
  let L := Samples.lib_with (Some Samples.t_demo) None None in
  ∃ r, process_site_diary L Samples.url Samples.w0
         = (fst (process_site_diary L Samples.url Samples.w0), inr r) ∧
       (num_cleaned_rows r + num_filtered_rows r ≤ length (rows Samples.t_demo))%nat.
Proof.
  intros L. eexists. split; [vm_compute; reflexivity|].
  destruct (process_row_counts L Samples.url Samples.w0 _ _ ltac:(vm_compute; reflexivity))
    as (df & Hl & _ & _ & Hle).
  vm_compute in Hl. injection Hl as <-. exact Hle.
Defined.

(** X9. Extra (process_site_diary, lines 141-144): the Field Deriver keeps
    every row in place and every cell outside the two derived columns,
    and appends the derived columns when they are new.  Row [i]'s
    Shift_Type depends on row [i]'s Shift alone, while its Duration_min is
    the [i]-th value of the whole Duration column's conversion (the dtype,
    and with it the value written, depends on all the rows). *)
Theorem derive_row_cells (wide : list string → list cell) (t : table) (Hwf : table_wf t) :
  let D := Pipeline.derive wide t in
  length (rows D) = length (rows t) ∧
  columns D = TableFacts.set_cols (TableFacts.set_cols (columns t) "Shift_Type") "Duration_min" ∧
  ∀ i r, rows t !! i = Some r → ∃ r', rows D !! i = Some r' ∧
    get (columns D) r' "Shift_Type" = Pipeline.shift_type (py_str (get (columns t) r "Shift")) ∧
    get (columns D) r' "Duration_min" =
      default Null (Pipeline.to_numeric wide (Pipeline.duration_runs t) !! i) ∧
    ∀ m, m ≠ "Shift_Type" → m ≠ "Duration_min" → get (columns D) r' m = get (columns t) r m.
Proof.
  intros D. split; [apply DeriveFacts.derive_length|]. split; [apply DeriveFacts.derive_columns|].
  intros i r Hr. exact (DeriveFacts.derive_row wide t i r Hwf Hr).
Qed.

Lemma derive_row_cells_witness :
  table_wf Samples.t_shift ∧
  ∃ r', rows (Pipeline.derive (fun runs => map (fun _ => Null) runs) Samples.t_shift) !! 0%nat = Some r' ∧
    get (columns (Pipeline.derive (fun runs => map (fun _ => Null) runs) Samples.t_shift)) r' "Duration_min"
      = Flt 45.
Proof.
  assert (H : table_wf Samples.t_shift) by (unfold table_wf; repeat constructor).
  split; [exact H|].
  destruct (derive_row_cells (fun runs => map (fun _ => Null) runs) Samples.t_shift H) as (_ & _ & Hrow).
  destruct (Hrow 0%nat _ eq_refl) as (r' & Hr' & _ & Hd & _).
  exists r'. split; [exact Hr'|]. rewrite Hd. vm_compute. reflexivity.
Defined.

(** X10. Extra (process_site_diary, lines 117-123): the Record Normalizer only
    rewrites the two flag columns: each surviving row comes from an input
    row whose two flags parse to false, and agrees with it on every other
    column. *)
Theorem normalize_keeps_other_cells (t : table) (Hwf : table_wf t) :
  ∀ r, In r (rows (Pipeline.normalize t)) → ∃ r0, In r0 (rows t) ∧
    Pipeline.parse_flag (get (columns t) r0 "Ignore Entry") = false ∧
    Pipeline.parse_flag (get (columns t) r0 "Internal Use Only") = false ∧
    ∀ m, m ≠ "Ignore Entry" → m ≠ "Internal Use Only" →
      get (columns (Pipeline.normalize t)) r m = get (columns t) r0 m.
Proof.
  intros r Hr. apply NormalizeFacts.normalize_rows in Hr as (Hin & Hi & Hu & _).
  rewrite NormalizeFacts.normalize_columns.
  unfold Pipeline.convert_flags in *. rewrite !TableFacts.set_col_eq in Hin, Hi, Hu |- *.
  simpl in Hin, Hi, Hu |- *.
  apply in_map_iff in Hin as (r1 & <- & Hr1).
  apply in_map_iff in Hr1 as (r0 & <- & Hr0).
  exists r0. split; [exact Hr0|].
  assert (Hlen : length r0 = length (columns t))
    by (eapply List.Forall_forall in Hwf; [exact Hwf|exact Hr0]).
  pose proof (TableFacts.set_cell_length (columns t) "Ignore Entry"
    (Bool (Pipeline.parse_flag (get (columns t) r0 "Ignore Entry"))) r0 Hlen) as Hlen1.
  rewrite (TableFacts.get_set_cell_other (columns t) "Ignore Entry" "Internal Use Only") in Hi, Hu |- * by done.
  rewrite TableFacts.get_set_cell_other in Hi by done.
  rewrite TableFacts.get_set_cell_same in Hi by done.
  rewrite TableFacts.get_set_cell_same in Hu by done.
  split; [by destruct (Pipeline.parse_flag (get (columns t) r0 "Ignore Entry"))|].
  split; [by destruct (Pipeline.parse_flag (get (columns t) r0 "Internal Use Only"))|].
  intros m H1 H2. rewrite TableFacts.get_set_cell_other by done.
  by rewrite TableFacts.get_set_cell_other.
Qed.

Lemma normalize_keeps_other_cells_witness :
  table_wf Samples.t_demo ∧
  ∃ r0, In r0 (rows Samples.t_demo) ∧
    Pipeline.parse_flag (get (columns Samples.t_demo) r0 "Ignore Entry") = false.
Proof.
  assert (H : table_wf Samples.t_demo) by (unfold table_wf; repeat constructor).
  assert (Hin : In (hd [] (rows (Pipeline.normalize Samples.t_demo)))
                   (rows (Pipeline.normalize Samples.t_demo))).
  { vm_compute. left. reflexivity. }
  split; [exact H|].
  destruct (normalize_keeps_other_cells Samples.t_demo H _ Hin) as (r0 & Hr0 & Hf & _ & _).
  exists r0. split; [exact Hr0|exact Hf].
Defined.

(* ------------------------------------------------------------------ *)
(** ** The scratch directory over time *)

Module StoreMore.

Lemma cleanup_compose (now1 now2 : Z) (d : gmap string file) :
  (now1 ≤ now2)%Z → cleanup_old_files now2 (cleanup_old_files now1 d) = cleanup_old_files now2 d.
Proof.
  intros Hle. apply map_eq. intros k.
  destruct (cleanup_old_files now2 d !! k) as [g|] eqn:E.
  - apply StoreFacts.cleanup_lookup in E as [E1 E2]. apply StoreFacts.cleanup_lookup.
    split; [|done]. apply StoreFacts.cleanup_lookup. split; [done|lia].
  - destruct (cleanup_old_files now2 (cleanup_old_files now1 d) !! k) as [g|] eqn:E'; [|done].
    apply StoreFacts.cleanup_lookup in E' as [E1 E2]. apply StoreFacts.cleanup_lookup in E1 as [E1 _].
    assert (cleanup_old_files now2 d !! k = Some g) by (by apply StoreFacts.cleanup_lookup).
    congruence.
Qed.

Lemma download_world (name : string) (w : world) :
  fst (download_file name w) = mk_world (cleanup_old_files (clock w) (fs w)) (clock w) (uuid_ctr w).
Proof. unfold download_file. destruct (is_dir_entry name); [reflexivity|]. simpl. by destruct (_ !! name). Qed.

Lemma download_hit (name : string) (g : file) (w : world) :
  is_dir_entry name = false →
  fs w !! name = Some g → (clock w - mtime g ≤ FILE_LIFETIME_SECONDS)%Z →
  snd (download_file name w) = FileResponse (content g).
Proof.
  intros Hn Hg Hage. unfold download_file. rewrite Hn. simpl.
  by rewrite (proj2 (StoreFacts.cleanup_lookup _ _ name g) (conj Hg Hage)).
Qed.

Lemma download_miss (name : string) (g : file) (w : world) :
  is_dir_entry name = false →
  fs w !! name = Some g → (clock w - mtime g > FILE_LIFETIME_SECONDS)%Z →
  snd (download_file name w) = FileNotFound.
Proof.
  intros Hn Hg Hage. unfold download_file. rewrite Hn. simpl.
  destruct (cleanup_old_files (clock w) (fs w) !! name) as [g'|] eqn:E; [|done].
  apply StoreFacts.cleanup_lookup in E as [E1 E2]. rewrite Hg in E1. injection E1 as <-. lia.
Qed.

Lemma string_app_inv_r (a b s : string) : a ++ s = b ++ s → a = b.
Proof.
  intros H. apply (f_equal list_ascii_of_string) in H. rewrite !ArtifactFacts.list_ascii_app in H.
  apply app_inv_tail in H.
  rewrite <- (string_of_list_ascii_of_string a), <- (string_of_list_ascii_of_string b).
  by rewrite H.
Qed.

Lemma string_length_app (a b : string) : String.length (a ++ b) = (String.length a + String.length b)%nat.
Proof.
  induction a as [|c a IH]; [reflexivity|].
  change (S (String.length (a ++ b)) = S (String.length a + String.length b)). by rewrite IH.
Qed.

(** The artifact names end in ".csv", so they are never "." or "..". *)
Lemma artifact_not_dir (a suffix : string) : is_dir_entry (a ++ "_" ++ suffix ++ ".csv") = false.
Proof.
  unfold is_dir_entry. apply orb_false_iff. split; apply String.eqb_neq; intros H;
    apply (f_equal String.length) in H; rewrite !string_length_app in H; simpl in H; lia.
Qed.

End StoreMore.

(** X11. Extra (cleanup_old_files, lines 43-49): sweeping is monotone in time:
    a sweep at a later clock removes everything an earlier sweep removed,
    so sweeping at [now1] and then at [now2 ≥ now1] leaves the same files
    as one sweep at [now2]; in particular a second sweep at the same clock
    changes nothing. *)
Theorem cleanup_later_sweep (now1 now2 : Z) (d : gmap string file) (Hle : (now1 ≤ now2)%Z) :
  cleanup_old_files now2 (cleanup_old_files now1 d) = cleanup_old_files now2 d.
Proof. by apply StoreMore.cleanup_compose. Qed.

Lemma cleanup_later_sweep_witness :
  (1000 ≤ 1700)%Z ∧
  cleanup_old_files 1700 (cleanup_old_files 1000 (fs Samples.w_store)) =
  cleanup_old_files 1700 (fs Samples.w_store).
Proof.
  split; [lia|]. apply cleanup_later_sweep. lia.
Defined.

(** X12. Extra (download_file, lines 210-217): a download only sweeps expired
    files: running a second download at the same clock sees the store the
    first one left, answers as it would have on the original store, and
    changes nothing further. *)
Theorem download_repeat (m n : string) (w : world) :
  fst (download_file n (fst (download_file m w))) = fst (download_file m w) ∧
  snd (download_file n (fst (download_file m w))) = snd (download_file n w).
Proof.
  rewrite !StoreMore.download_world. split.
  - simpl. by rewrite StoreMore.cleanup_compose by lia.
  - unfold download_file. simpl. rewrite StoreMore.cleanup_compose by lia. reflexivity.
Qed.

(** X13. Extra (process_site_diary and download_file): the artifacts of a
    successful request are stamped with the request time; a later
    download of either name returns exactly the serialised record set
    while at most 600 seconds have passed, and the not-found payload
    afterwards. *)
Theorem process_then_download (L : Lib) (file_path : string) (w w' : world) (r : result)
  (Hok : process_site_diary L file_path w = (w', inr r)) :
  ∃ cf ff, cleaned_download_url r = (DOWNLOAD_BASE ++ cf) ∧
    filtered_download_url r = (DOWNLOAD_BASE ++ ff) ∧
    ∀ now, let w_now := mk_world (fs w') now (uuid_ctr w') in
    ((now - clock w ≤ FILE_LIFETIME_SECONDS)%Z →
       snd (download_file cf w_now) = FileResponse (Csv.serialize (cleaned_df_dict r)) ∧
       snd (download_file ff w_now) = FileResponse (Csv.serialize (filtered_out_df_dict r))) ∧
    ((now - clock w > FILE_LIFETIME_SECONDS)%Z →
       snd (download_file cf w_now) = FileNotFound ∧ snd (download_file ff w_now) = FileNotFound).
Proof.
  destruct (RowFacts.process_ok_eq L file_path w w' r Hok) as (df & cl & fl & p & _ & _ & _ & -> & ->).
  eexists _, _. split; [reflexivity|]. split; [reflexivity|]. intros now w_now.
  cbn [cleaned_df_dict filtered_out_df_dict].
  assert (Hc : fs w_now !! (uuid4_hex L (uuid_ctr w) ++ "_" ++ "cleaned" ++ ".csv")
               = Some (mk_file (clock w) (Csv.serialize cl))).
  { unfold w_now. cbn [fs]. rewrite lookup_insert_ne; [by rewrite lookup_insert_eq|].
    apply ArtifactFacts.artifact_names_differ. }
  assert (Hf : fs w_now !! (uuid4_hex L (S (uuid_ctr w)) ++ "_" ++ "filtered" ++ ".csv")
               = Some (mk_file (clock w) (Csv.serialize fl))).
  { unfold w_now. cbn [fs]. by rewrite lookup_insert_eq. }
  split; intros Hage.
  - split; [exact (StoreMore.download_hit _ _ _ (StoreMore.artifact_not_dir _ _) Hc ltac:(unfold w_now; simpl; lia))
           |exact (StoreMore.download_hit _ _ _ (StoreMore.artifact_not_dir _ _) Hf ltac:(unfold w_now; simpl; lia))].
  - split; [exact (StoreMore.download_miss _ _ _ (StoreMore.artifact_not_dir _ _) Hc ltac:(unfold w_now; simpl; lia))
           |exact (StoreMore.download_miss _ _ _ (StoreMore.artifact_not_dir _ _) Hf ltac:(unfold w_now; simpl; lia))].
Qed.

Lemma process_then_download_witness :
  let L := Samples.lib_with (Some Samples.t_demo) None None in
  ∃ r, process_site_diary L Samples.url Samples.w0
         = (fst (process_site_diary L Samples.url Samples.w0), inr r) ∧
       cleaned_download_url r = (DOWNLOAD_BASE ++ "0_cleaned.csv").
Proof.
  intros L. eexists. split; [vm_compute; reflexivity|].
  destruct (process_then_download L Samples.url Samples.w0 _ _ ltac:(vm_compute; reflexivity))
    as (cf & ff & Hc & _ & _).
  vm_compute. reflexivity.
Defined.

(** X15. Extra (run_tool and save_temp_file): when uuid draws do not repeat, a
    second request, successful or not, leaves the two artifacts of an
    earlier successful request in place with their bytes. *)
Theorem second_request_keeps_artifacts (L : Lib) (u1 u2 : string) (w w1 : world) (r1 : result)
  (H1 : process_site_diary L u1 w = (w1, inr r1))
  (Hfresh0 : uuid4_hex L (uuid_ctr w) ≠ uuid4_hex L (S (S (uuid_ctr w))))
  (Hfresh1 : uuid4_hex L (S (uuid_ctr w)) ≠ uuid4_hex L (S (S (S (uuid_ctr w))))) :
  ∃ cf ff, cleaned_download_url r1 = (DOWNLOAD_BASE ++ cf) ∧
    filtered_download_url r1 = (DOWNLOAD_BASE ++ ff) ∧
    option_map content (fs (fst (run_tool L u2 w1)) !! cf) = Some (Csv.serialize (cleaned_df_dict r1)) ∧
    option_map content (fs (fst (run_tool L u2 w1)) !! ff) = Some (Csv.serialize (filtered_out_df_dict r1)).
Proof.
  destruct (RowFacts.process_ok_eq L u1 w w1 r1 H1) as (df & cl & fl & p & _ & _ & _ & Hw1 & ->).
  eexists _, _. split; [reflexivity|]. split; [reflexivity|].
  cbn [cleaned_df_dict filtered_out_df_dict].
  set (cf := uuid4_hex L (uuid_ctr w) ++ "_" ++ "cleaned" ++ ".csv").
  set (ff := uuid4_hex L (S (uuid_ctr w)) ++ "_" ++ "filtered" ++ ".csv").
  assert (Hc1 : fs w1 !! cf = Some (mk_file (clock w) (Csv.serialize cl))).
  { rewrite Hw1. cbn [fs]. rewrite lookup_insert_ne; [by rewrite lookup_insert_eq|].
    apply ArtifactFacts.artifact_names_differ. }
  assert (Hf1 : fs w1 !! ff = Some (mk_file (clock w) (Csv.serialize fl))).
  { rewrite Hw1. cbn [fs]. by rewrite lookup_insert_eq. }
  assert (Hkeep : fs (fst (run_tool L u2 w1)) !! cf = fs w1 !! cf ∧
                  fs (fst (run_tool L u2 w1)) !! ff = fs w1 !! ff).
  { unfold run_tool. destruct (process_site_diary L u2 w1) as [w2 [e|r2]] eqn:E2; simpl.
    - by destruct (ErrorFacts.process_error_cases L u2 w1 w2 e E2) as [-> _].
    - destruct (RowFacts.process_ok_eq L u2 w1 w2 r2 E2) as (df2 & cl2 & fl2 & p2 & _ & _ & _ & -> & _).
      cbn [fs]. rewrite Hw1. cbn [uuid_ctr]. split.
      + rewrite lookup_insert_ne; [rewrite lookup_insert_ne; [done|]|apply ArtifactFacts.artifact_names_differ].
        intros E. apply StoreMore.string_app_inv_r in E. by apply Hfresh0.
      + rewrite lookup_insert_ne; [rewrite lookup_insert_ne; [done|]|].
        * intros E. symmetry in E. by apply ArtifactFacts.artifact_names_differ in E.
        * intros E. apply StoreMore.string_app_inv_r in E. by apply Hfresh1. }
  destruct Hkeep as [-> ->]. by rewrite Hc1, Hf1.
Qed.

Lemma second_request_keeps_artifacts_witness :
  let L := Samples.lib_with (Some Samples.t_demo) None None in
  ∃ r1, process_site_diary L Samples.url Samples.w0
          = (fst (process_site_diary L Samples.url Samples.w0), inr r1) ∧
        ∃ cf, option_map content
                (fs (fst (run_tool L Samples.url (fst (process_site_diary L Samples.url Samples.w0)))) !! cf)
              = Some (Csv.serialize (cleaned_df_dict r1)).
Proof.
  intros L. eexists. split; [vm_compute; reflexivity|].
  destruct (second_request_keeps_artifacts L Samples.url Samples.url Samples.w0 _ _
              ltac:(vm_compute; reflexivity)
              ltac:(intros E; vm_compute in E; discriminate)
              ltac:(intros E; vm_compute in E; discriminate))
    as (cf & ff & _ & _ & Hcf & _).
  exists cf. exact Hcf.
Defined.

(* ------------------------------------------------------------------ *)
(** ** Line breaks of the CSV text *)

Module CsvLines.

Lemma count_app (c : ascii) (a b : string) : count_char c (a ++ b) = (count_char c a + count_char c b)%nat.
Proof.
  induction a as [|x a IH]; [reflexivity|].
  change (String x a ++ b) with (String x (a ++ b)). simpl. rewrite IH. lia.
Qed.

Lemma double_quotes_count (s : string) : count_char Csv.nl (Csv.double_quotes s) = count_char Csv.nl s.
Proof.
  induction s as [|x s IH]; [reflexivity|]. simpl.
  destruct (Ascii.eqb x Csv.dq) eqn:E.
  - apply Ascii.eqb_eq in E. subst x. simpl. by rewrite IH.
  - simpl. by rewrite IH.
Qed.

Lemma field_count (s : string) : count_char Csv.nl (Csv.field s) = count_char Csv.nl s.
Proof.
  unfold Csv.field. destruct (Csv.needs_quote s); [|reflexivity].
  simpl. rewrite count_app, double_quotes_count. simpl. lia.
Qed.

Lemma join_count (sep : string) (xs : list string) :
  count_char Csv.nl sep = O →
  count_char Csv.nl (Py.join sep xs) = sum_list (map (count_char Csv.nl) xs).
Proof.
  intros Hsep. induction xs as [|x xs IH]; [reflexivity|].
  destruct xs as [|y xs]; [simpl; lia|].
  change (Py.join sep (x :: y :: xs)) with (x ++ sep ++ Py.join sep (y :: xs)).
  rewrite !count_app, Hsep, IH. simpl. lia.
Qed.

Lemma concat_count (xs : list string) :
  count_char Csv.nl (String.concat "" xs) = sum_list (map (count_char Csv.nl) xs).
Proof.
  induction xs as [|x xs IH]; [reflexivity|].
  destruct xs as [|y xs]; [simpl; lia|].
  change (String.concat "" (x :: y :: xs)) with (x ++ "" ++ String.concat "" (y :: xs)).
  rewrite !count_app, IH. simpl. lia.
Qed.

Lemma line_count (fields : list string) :
  count_char Csv.nl (Csv.line fields) = S (sum_list (map (count_char Csv.nl) fields)).
Proof.
  unfold Csv.line. rewrite count_app, join_count by reflexivity. rewrite map_map.
  rewrite (map_ext _ _ field_count). simpl. lia.
Qed.

End CsvLines.

(** X16. Extra (process_site_diary, lines 153-154, DataFrame.to_csv): quoting
    neither adds nor removes line breaks: the CSV text has one line break
    per header and per record, plus the ones inside the column names and
    cell texts; so it has exactly [1 + #rows] lines when no text holds a
    line break. *)
Theorem csv_line_breaks (t : table) :
  count_char Csv.nl (Csv.to_csv t) =
  (S (length (rows t)) + sum_list (map (count_char Csv.nl) (columns t))
   + sum_list (map (fun r => sum_list (map (fun c => count_char Csv.nl (Csv.cell_text c)) r)) (rows t)))%nat.
Proof.
  unfold Csv.to_csv. rewrite CsvLines.count_app, CsvLines.line_count, CsvLines.concat_count, map_map.
  induction (rows t) as [|r rs IH]; [simpl; lia|].
  simpl in *. rewrite CsvLines.line_count, map_map. lia.
Qed.
